(** * gerrit-mcp-server: the tool-call handler of [src/index.ts]

    A shallow embedding of the Gerrit MCP server's request handler, in the
    version of [index.ts] that registers six tools: the
    response unwrapper [parseGerritResponse], the axios interceptors that
    apply it, the zod argument schemas, and the six cases of the
    [CallToolRequestSchema] handler with their per-item [try]/[catch] loops.

    JavaScript effects (HTTP calls through axios, [execSync], [setTimeout],
    [console.error]) are threaded through an explicit state: an abstract
    world that answers each call, and the trace of the calls made so far.
    A [throw] is a [Throw] completion; [try]/[catch] is [try_catch].
    Values are plain JSON data: nothing the handler reads is callable, so
    a template literal on an object either prints [[object Object]] or
    throws a [TypeError], and a property read that finds no own entry
    falls back to [Object.prototype]. *)

From Stdlib Require Import String Ascii List ZArith Bool Lia DecimalString.
Import ListNotations.
Open Scope list_scope.
Open Scope string_scope.

(** ** Characters that a string literal cannot hold directly *)

(** ["\n"], the separator of [results.join("\n")]. *)
Definition LF : string := String "010"%char EmptyString.

(** The double quote of the query [topic:"<topic>"]. *)
Definition DQ : string := String "034"%char EmptyString.

(** ** JavaScript strings *)

(** [s.startsWith(p)] *)
Definition startsWith (s p : string) : bool := String.prefix p s.

(** [s.substring(n)]: the characters of [s] from index [n] to the end. *)
Definition substring_from (n : nat) (s : string) : string :=
  String.substring n (String.length s - n) s.

(** [results.push(x)] *)
Definition push {A : Type} (results : list A) (x : A) : list A :=
  (results ++ [x])%list.

(** [parts.join(sep)] *)
Definition join (sep : string) (parts : list string) : string :=
  String.concat sep parts.

(** ** JavaScript numbers *)

(** JavaScript numbers are IEEE doubles; the handler only passes them around,
    prints them inside template literals and tests them for truthiness, so
    they are an interface with these three operations. *)
Class JSNumber : Type := {
  Number : Type;
  Number_ofZ : Z -> Number;            (* an integer literal *)
  Number_toString : Number -> string;  (* ToString of a number *)
  Number_toBoolean : Number -> bool    (* false for 0 and NaN  *)
}.

Section Server.

Context {num : JSNumber}.

(** ** JavaScript values *)

(** What [JSON.parse] can return, plus [undefined].  An object is the list
    of its own properties. *)
#[warnings="-register-all"]
Inductive JSValue : Type :=
| JSUndefined
| JSNull
| JSBool (b : bool)
| JSNum (n : Number)
| JSStr (s : string)
| JSArr (items : list JSValue)
| JSObj (fields : list (string * JSValue)).

(** [o[k]] on the own properties of an object. *)
Fixpoint own_property (fields : list (string * JSValue)) (k : string) : JSValue :=
  match fields with
  | [] => JSUndefined
  | (k', v) :: rest => if String.eqb k' k then v else own_property rest k
  end.

(** [v?.[k]]: [undefined] on [undefined] and [null]; primitives and arrays
    have no property of the names the handler reads ([message]). *)
Definition optional_get (v : JSValue) (k : string) : JSValue :=
  match v with
  | JSObj fields => own_property fields k
  | _ => JSUndefined
  end.

(** ToBoolean, as [!v], [v || w] and [if (v)] apply it. *)
Definition ToBoolean (v : JSValue) : bool :=
  match v with
  | JSUndefined | JSNull => false
  | JSBool b => b
  | JSNum n => Number_toBoolean n
  | JSStr s => negb (String.eqb s EmptyString)
  | JSArr _ | JSObj _ => true
  end.

(** Whether an object has an own property named [k], whatever its value. *)
Definition has_own_property (fields : list (string * JSValue)) (k : string) : bool :=
  existsb (fun kv => String.eqb (fst kv) k) fields.

(** ToString, as a template literal applies it: [None] when it throws a
    [TypeError].  No value of [JSValue] is callable.  So an object with an
    own [toString] property has no primitive value (the own property
    shadows [Object.prototype.toString], it cannot be called, and
    [valueOf] returns the object itself or cannot be called either); every
    other object goes through [Object.prototype.toString] and gives
    ["[object Object]"].  An array goes through [Array.prototype.join],
    which converts each element other than [undefined] and [null]. *)
Fixpoint ToString (v : JSValue) : option string :=
  match v with
  | JSUndefined => Some "undefined"
  | JSNull => Some "null"
  | JSBool true => Some "true"
  | JSBool false => Some "false"
  | JSNum n => Some (Number_toString n)
  | JSStr s => Some s
  | JSArr items =>
      option_map (join ",")
        ((fix elements (l : list JSValue) : option (list string) :=
            match l with
            | [] => Some []
            | x :: rest =>
                match match x with
                      | JSUndefined | JSNull => Some EmptyString
                      | _ => ToString x
                      end, elements rest with
                | Some text, Some texts => Some (text :: texts)
                | _, _ => None
                end
            end) items)
  | JSObj fields =>
      if has_own_property fields "toString" then None else Some "[object Object]"
  end.

(** [`${s}`] on a string that may be [undefined]. *)
Definition String_of (o : option string) : string :=
  match o with Some s => s | None => "undefined" end.

(** [`${n}`] on a number that may be [undefined]. *)
Definition Number_of (o : option Number) : string :=
  match o with Some n => Number_toString n | None => "undefined" end.

(** ** Thrown values *)

(** An axios response; only [data] is read by the handler. *)
Record AxiosResponse : Type := mkResponse { data : JSValue }.

(** A thrown [Error].  [response] is present on an axios error that carries
    the server's answer and absent ([undefined]) on every other error. *)
Record JSError : Type := mkError {
  response : option AxiosResponse;
  message : string
}.

(** [new Error(msg)], and the errors the runtime and zod raise. *)
Definition Error (msg : string) : JSError :=
  {| response := None; message := msg |}.

(** ** Data model *)

(** Revision metadata; [patchset_number] is the revision's [_number]. *)
Record RevisionInfo : Type := mkRevision { patchset_number : Number }.

(** A change as the changes query returns it, with the attributes the
    handler reads.  [revisions] maps a revision id to its metadata; Gerrit
    sends it, and [current_revision], only when the query asks for the
    current revision: [None] is a field that is absent ([undefined]). *)
Record Change : Type := mkChange {
  _number : Number;
  project : string;
  subject : string;
  current_revision : option string;
  revisions : option (list (string * RevisionInfo))
}.

(** The own entry of [revisions] under the key [rev], when there is one. *)
Fixpoint revision_at (revs : list (string * RevisionInfo)) (rev : string)
  : option RevisionInfo :=
  match revs with
  | [] => None
  | (k, r) :: rest => if String.eqb k rev then Some r else revision_at rest rev
  end.

(** The tool result: one text content block and the error flag (absent in
    the source when [false]). *)
Record ToolResponse : Type := mkToolResponse { text : string; isError : bool }.

(** ** Effects *)

Inductive Method : Type := GET | POST.

(** An axios call: [gerritApi.get(url, config)] or
    [gerritApi.post(url, body, config)]. *)
Record Request : Type := mkRequest {
  method : Method;
  url : string;
  params : JSValue;      (* [config.params], [undefined] when absent *)
  body : JSValue;        (* the posted body, [undefined] for a GET *)
  keep_raw : bool        (* [config.transformResponse = [(data) => data]] *)
}.

(** What the process does to the outside, in order. *)
Inductive Event : Type :=
| HttpRequest (req : Request)
| Timeout (ms : Z)
| ExecSync (cmd : string)
| ConsoleError (line : string).

(** ** What the handler runs on *)

(** The runtime functions that are not part of the repository, and the
    outside world. *)
Class Runtime : Type := {
  (** [JSON.parse(text)]: the parsed value, or the message of the
      [SyntaxError] it throws. *)
  JSON_parse : string -> JSValue + string;
  (** [JSON.stringify(value, null, 2)] *)
  JSON_stringify : JSValue -> string;
  (** The message of the [ZodError] that [schema.parse(input)] throws, by
      the name of the schema and the rejected input. *)
  ZodError_message : string -> JSValue -> string;
  (** The message of the [TypeError] that a template literal throws on a
      value without a primitive value (V8: [Cannot convert object to
      primitive value]). *)
  TypeError_to_primitive : string;
  (** The message of the [TypeError] that reading the property [key] of
      [undefined] throws (V8: [Cannot read properties of undefined
      (reading '<key>')]). *)
  TypeError_read_undefined : string -> string;
  (** Whether [Object.prototype] has a property of this name
      ([constructor], [toString], [__proto__], ...): every plain object
      inherits it.  Its value is a function, or [Object.prototype] itself,
      and has no [_number]. *)
  Object_prototype_has : string -> bool;
  (** The assertion [response.data as any[]] together with the shape of a
      change: [None] for a falsy payload ([!changes]), [Some items] for an
      array of change objects. *)
  as_changes : JSValue -> option (list Change);
  (** The state of everything outside the process. *)
  World : Type;
  (** axios up to (not including) the interceptors of this file. *)
  World_http : Request -> World -> (AxiosResponse + JSError) * World;
  (** The child process behind [execSync]: [Some msg] when it throws an
      error with message [msg]. *)
  World_exec : string -> World -> option string * World;
  (** The passing of [ms] milliseconds. *)
  World_sleep : Z -> World -> World
}.

Context {rt : Runtime}.

(** ** Response unwrapper (index.ts, parseGerritResponse) *)

(** The four-character anti-XSS prefix of Gerrit's JSON answers. *)
Definition XSSI_PREFIX : string := ")]}'".

Definition parseGerritResponse (d : JSValue) : JSValue + string :=
  match d with
  | JSStr s =>
      if startsWith s XSSI_PREFIX
      then JSON_parse (substring_from 4 s)
      else inl d
  | _ => inl d
  end.

Record State : Type := mkState { world : World; trace : list Event }.

Inductive Completion (A : Type) : Type :=
| Normal (a : A)
| Throw (e : JSError).
Arguments Normal {A} a.
Arguments Throw {A} e.

Definition M (A : Type) : Type := State -> Completion A * State.

Definition ret {A : Type} (a : A) : M A := fun st => (Normal a, st).

Definition throw {A : Type} (e : JSError) : M A := fun st => (Throw e, st).

Definition bind {A B : Type} (m : M A) (k : A -> M B) : M B :=
  fun st =>
    match m st with
    | (Normal a, st') => k a st'
    | (Throw e, st') => (Throw e, st')
    end.

(** An expression without effect that completes or throws. *)
Definition lift {A : Type} (c : Completion A) : M A := fun st => (c, st).

(** [try { m } catch (e) { h e }] *)
Definition try_catch {A : Type} (m : M A) (h : JSError -> M A) : M A :=
  fun st =>
    match m st with
    | (Normal a, st') => (Normal a, st')
    | (Throw e, st') => h e st'
    end.

Local Notation "x <- m ;; k" := (bind m (fun x => k))
  (at level 61, m at next level, right associativity).
Local Notation "m ;;; k" := (bind m (fun _ => k))
  (at level 61, right associativity).

Definition log (ev : Event) (st : State) : list Event := push (trace st) ev.

(** [console.error(line)] *)
Definition console_error (line : string) : M unit :=
  fun st => (Normal tt, {| world := world st; trace := log (ConsoleError line) st |}).

(** [await new Promise(resolve => setTimeout(resolve, ms))] *)
Definition sleep (ms : Z) : M unit :=
  fun st => (Normal tt, {| world := World_sleep ms (world st);
                           trace := log (Timeout ms) st |}).

(** [execSync(cmd, { stdio: 'inherit' })] *)
Definition execSync (cmd : string) : M unit :=
  fun st =>
    let (r, w) := World_exec cmd (world st) in
    let st' := {| world := w; trace := log (ExecSync cmd) st |} in
    match r with
    | None => (Normal tt, st')
    | Some msg => (Throw (Error msg), st')
    end.

(** ** The axios instance and its interceptors (index.ts, gerritApi) *)

(** The fulfilled interceptor: [response.data = parseGerritResponse(response.data)]. *)
Definition on_fulfilled (r : AxiosResponse) : Completion AxiosResponse :=
  match parseGerritResponse (data r) with
  | inl v => Normal {| data := v |}
  | inr msg => Throw (Error msg)
  end.

(** The rejected interceptor: unwrap [error.response.data] when there is
    one, then reject with the error. *)
Definition on_rejected (error : JSError) : Completion AxiosResponse :=
  match response error with
  | Some r =>
      if ToBoolean (data r)
      then match parseGerritResponse (data r) with
           | inl v => Throw {| response := Some {| data := v |};
                               message := message error |}
           | inr msg => Throw (Error msg)
           end
      else Throw error
  | None => Throw error
  end.

Definition gerritApi (req : Request) : M AxiosResponse :=
  fun st =>
    let (r, w) := World_http req (world st) in
    let st' := {| world := w; trace := log (HttpRequest req) st |} in
    match r with
    | inl resp => (on_fulfilled resp, st')
    | inr error => (on_rejected error, st')
    end.

Definition gerritApi_get (u : string) (ps : JSValue) (raw : bool) : M AxiosResponse :=
  gerritApi {| method := GET; url := u; params := ps; body := JSUndefined;
               keep_raw := raw |}.

Definition gerritApi_post (u : string) (b : JSValue) (raw : bool) : M AxiosResponse :=
  gerritApi {| method := POST; url := u; params := JSUndefined; body := b;
               keep_raw := raw |}.

(** ** zod schemas (index.ts, "Define tool schemas") *)

Definition Schema (A : Type) : Type := JSValue -> option A.

(** [z.string()] *)
Definition z_string : Schema string :=
  fun v => match v with JSStr s => Some s | _ => None end.

(** [z.number()] *)
Definition z_number : Schema Number :=
  fun v => match v with JSNum n => Some n | _ => None end.

(** [inner.optional()]: [undefined] is accepted as it is. *)
Definition z_optional {A : Type} (inner : Schema A) : Schema (option A) :=
  fun v => match v with
           | JSUndefined => Some None
           | _ => option_map Some (inner v)
           end.

(** [inner.default(d)]: [undefined] is replaced by [d]. *)
Definition z_default {A : Type} (inner : Schema A) (d : A) : Schema A :=
  fun v => match v with JSUndefined => Some d | _ => inner v end.

Fixpoint all_of {A B : Type} (f : A -> option B) (l : list A) : option (list B) :=
  match l with
  | [] => Some []
  | x :: rest =>
      match f x, all_of f rest with
      | Some y, Some ys => Some (y :: ys)
      | _, _ => None
      end
  end.

(** [z.array(inner)] *)
Definition z_array {A : Type} (inner : Schema A) : Schema (list A) :=
  fun v => match v with JSArr items => all_of inner items | _ => None end.

(** [z.record(inner)] *)
Definition z_record {A : Type} (inner : Schema A) : Schema (list (string * A)) :=
  fun v => match v with
           | JSObj fields =>
               all_of (fun kv => option_map (pair (fst kv)) (inner (snd kv))) fields
           | _ => None
           end.

(** [z.object({...})]: the input must be an object; [shape] parses the
    declared keys out of it (a missing key reads as [undefined]). *)
Definition z_object {A : Type} (shape : (string -> JSValue) -> option A) : Schema A :=
  fun v => match v with JSObj fields => shape (own_property fields) | _ => None end.

Definition ListChangesSchema : Schema (option string * option Number) :=
  z_object (fun get =>
    match z_default (z_optional z_string) (Some "status:open") (get "query"),
          z_default (z_optional z_number) (Some (Number_ofZ 10)) (get "limit") with
    | Some query, Some limit => Some (query, limit)
    | _, _ => None
    end).

Definition GetChangeSchema : Schema string :=
  z_object (fun get => z_string (get "changeId")).

Definition SetReviewSchema
  : Schema (string * string * option string * option (list (string * Number))) :=
  z_object (fun get =>
    match z_string (get "changeId"),
          z_default z_string "current" (get "revisionId"),
          z_optional z_string (get "message"),
          z_optional (z_record z_number) (get "labels") with
    | Some changeId, Some revisionId, Some message, Some labels =>
        Some (changeId, revisionId, message, labels)
    | _, _, _, _ => None
    end).

Definition SyncGerritSchema : Schema (option string * option string) :=
  z_object (fun get =>
    match z_optional z_string (get "topic"),
          z_optional z_string (get "changeId") with
    | Some topic, Some changeId => Some (topic, changeId)
    | _, _ => None
    end).

Definition SubmitChangesSchema : Schema (list string) :=
  z_object (fun get => z_array z_string (get "changeIds")).

Definition BatchReviewSubmitSchema : Schema (string * Number * Number) :=
  z_object (fun get =>
    match z_string (get "topic"),
          z_default z_number (Number_ofZ 1) (get "voteVerified"),
          z_default z_number (Number_ofZ 2) (get "voteReview") with
    | Some topic, Some voteVerified, Some voteReview =>
        Some (topic, voteVerified, voteReview)
    | _, _, _ => None
    end).

(** [schema.parse(input)]: the parsed arguments, or a thrown [ZodError]. *)
Definition parse {A : Type} (name : string) (schema : Schema A) (input : JSValue)
  : M A :=
  match schema input with
  | Some a => ret a
  | None => throw (Error (ZodError_message name input))
  end.

(** ** Registered tools (index.ts, ListToolsRequestSchema handler) *)

Definition registered_tools : list string :=
  [ "list_changes"; "get_change_detail"; "set_review"; "submit_changes";
    "batch_review_submit_by_topic"; "sync_gerrit_to_local" ].

(** ** The tool-call handler (index.ts, CallToolRequestSchema handler) *)

(** An optional parsed argument put back into an object literal. *)
Definition optional_value {A : Type} (inj : A -> JSValue) (o : option A) : JSValue :=
  match o with Some a => inj a | None => JSUndefined end.

(** [if (s)] on an optional string: absent and empty are both falsy. *)
Definition truthy (o : option string) : bool :=
  ToBoolean (optional_value JSStr o).

(** [e.response?.data] *)
Definition response_data (e : JSError) : JSValue :=
  match response e with Some r => data r | None => JSUndefined end.

(** [v || fallback] *)
Definition or_else (v : JSValue) (fallback : string) : JSValue :=
  if ToBoolean v then v else JSStr fallback.

(** A template-literal hole [${v}]: the text of [v], or the [TypeError]
    thrown when [v] has none. *)
Definition template (v : JSValue) : M string :=
  match ToString v with
  | Some text => ret text
  | None => throw (Error TypeError_to_primitive)
  end.

(** [e.response?.data || e.message], the detail of a failure line. *)
Definition failure_detail (e : JSError) : JSValue :=
  or_else (response_data e) (message e).

(** [case "list_changes"] *)
Definition list_changes (args : JSValue) : M ToolResponse :=
  a <- parse "ListChangesSchema" ListChangesSchema args ;;
  let '(query, limit) := a in
  r <- gerritApi_get "/changes/"
         (JSObj [("q", optional_value JSStr query); ("n", optional_value JSNum limit)])
         true ;;
  ret {| text := JSON_stringify (data r); isError := false |}.

(** [case "get_change_detail"] *)
Definition get_change_detail (args : JSValue) : M ToolResponse :=
  changeId <- parse "GetChangeSchema" GetChangeSchema args ;;
  r <- gerritApi_get ("/changes/" ++ changeId ++ "/detail")
         (JSObj [("o", JSArr [JSStr "CURRENT_REVISION"; JSStr "CURRENT_COMMIT";
                              JSStr "LABELS"])])
         true ;;
  ret {| text := JSON_stringify (data r); isError := false |}.

(** [case "set_review"] *)
Definition set_review (args : JSValue) : M ToolResponse :=
  a <- parse "SetReviewSchema" SetReviewSchema args ;;
  let '(changeId, revisionId, msg, labels) := a in
  gerritApi_post ("/changes/" ++ changeId ++ "/revisions/" ++ revisionId ++ "/review")
    (JSObj [("message", optional_value JSStr msg);
            ("labels",
             optional_value
               (fun l => JSObj (map (fun kv => (fst kv, JSNum (snd kv))) l)) labels)])
    true ;;;
  ret {| text := "Successfully posted review to " ++ changeId; isError := false |}.

(** The body of a submit request: [{ wait_for_merge: true }]. *)
Definition wait_for_merge : JSValue := JSObj [("wait_for_merge", JSBool true)].

(** [case "submit_changes"]: one turn of the loop over [changeIds]. *)
Definition submit_iteration (changeId : string) (results : list string)
  : M (list string) :=
  try_catch
    (gerritApi_post ("/changes/" ++ changeId ++ "/submit") wait_for_merge false ;;;
     ret (push results ("✓ Submitted " ++ changeId)))
    (fun e =>
       detail <- template (failure_detail e) ;;
       ret (push results ("✗ Failed " ++ changeId ++ ": " ++ detail))).

Fixpoint submit_loop (changeIds : list string) (results : list string)
  : M (list string) :=
  match changeIds with
  | [] => ret results
  | changeId :: rest =>
      results' <- submit_iteration changeId results ;;
      submit_loop rest results'
  end.

Definition submit_changes (args : JSValue) : M ToolResponse :=
  changeIds <- parse "SubmitChangesSchema" SubmitChangesSchema args ;;
  results <- submit_loop changeIds [] ;;
  ret {| text := join LF results; isError := false |}.

(** The two posts of the vote-then-submit action. *)
Definition review_request (changeId voteVerified voteReview : Number) : Request :=
  {| method := POST;
     url := "/changes/" ++ Number_toString changeId ++ "/revisions/current/review";
     params := JSUndefined;
     body := JSObj [("labels", JSObj [("Verified", JSNum voteVerified);
                                      ("Code-Review", JSNum voteReview)]);
                    ("message", JSStr "Batch review and submit by MCP Server")];
     keep_raw := false |}.

Definition submit_request (changeId : Number) : Request :=
  {| method := POST;
     url := "/changes/" ++ Number_toString changeId ++ "/submit";
     params := JSUndefined;
     body := wait_for_merge;
     keep_raw := false |}.

(** The awaited calls inside the [try] of the batch loop: vote, wait,
    submit. *)
Definition vote_then_submit (voteVerified voteReview : Number) (change : Change)
  : M unit :=
  let changeId := _number change in
  gerritApi (review_request changeId voteVerified voteReview) ;;;
  sleep 500 ;;;
  gerritApi (submit_request changeId) ;;;
  ret tt.

Definition processed_line (change : Change) : string :=
  "✓ Processed " ++ Number_toString (_number change) ++ ": " ++ subject change.

Definition batch_failed_line (change : Change) (detail : string) : string :=
  "✗ Failed " ++ Number_toString (_number change) ++ ": " ++ detail.

(** [case "batch_review_submit_by_topic"]: one turn of the loop over
    [changes]. *)
Definition batch_iteration (voteVerified voteReview : Number) (change : Change)
  (results : list string) : M (list string) :=
  try_catch
    (vote_then_submit voteVerified voteReview change ;;;
     ret (push results (processed_line change)))
    (fun e =>
       detail <- template (failure_detail e) ;;
       ret (push results (batch_failed_line change detail))).

Fixpoint batch_loop (voteVerified voteReview : Number) (changes : list Change)
  (results : list string) : M (list string) :=
  match changes with
  | [] => ret results
  | change :: rest =>
      results' <- batch_iteration voteVerified voteReview change results ;;
      batch_loop voteVerified voteReview rest results'
  end.

Definition batch_query (topic : string) : JSValue :=
  JSObj [("q", JSStr ("topic:" ++ DQ ++ topic ++ DQ ++ " status:open"))].

Definition batch_review_submit_by_topic (args : JSValue) : M ToolResponse :=
  a <- parse "BatchReviewSubmitSchema" BatchReviewSubmitSchema args ;;
  let '(topic, voteVerified, voteReview) := a in
  listResp <- gerritApi_get "/changes/" (batch_query topic) false ;;
  match as_changes (data listResp) with
  | None | Some [] =>
      ret {| text := "No open changes found for topic: " ++ topic; isError := false |}
  | Some changes =>
      results <- batch_loop voteVerified voteReview changes [] ;;
      ret {| text := join LF results; isError := false |}
  end.

(** The selector of the sync tool: the query built from [topic] or
    [changeId], or the thrown missing-selector error. *)
Definition sync_query (topic changeId : option string) : M string :=
  if truthy topic
  then ret ("topic:" ++ DQ ++ String_of topic ++ DQ)
  else if truthy changeId
  then ret (String_of changeId)
  else throw (Error "Either topic or changeId must be provided").

(** The command of the sync loop; [patchset] is [None] when the value read
    is [undefined]. *)
Definition repo_download (project : string) (changeNumber : Number)
  (patchset : option Number) : string :=
  "repo download " ++ project ++ " " ++ Number_toString changeNumber ++ "/"
    ++ Number_of patchset.

Definition synced_line (change : Change) (patchset : option Number) : string :=
  "✓ Synced " ++ Number_toString (_number change) ++ "/" ++ Number_of patchset
    ++ " in " ++ project change ++ ": " ++ subject change.

Definition sync_failed_line (change : Change) (e : JSError) : string :=
  "✗ Failed " ++ Number_toString (_number change) ++ " in " ++ project change ++ ": "
    ++ message e.

(** The calls inside the [try] of the sync loop: announce the command on
    stderr, then run it. *)
Definition download_and_apply (change : Change) (patchset : option Number) : M unit :=
  let cmd := repo_download (project change) (_number change) patchset in
  console_error ("Executing: " ++ cmd) ;;;
  execSync cmd.

(** [change.revisions[currentRev]._number], the reads that stand before
    the [try] of the sync loop.  [revisions[currentRev]] throws when the
    change has no [revisions]; it is the own entry under that key when
    there is one, else the member of [Object.prototype] of that name, else
    [undefined].  Reading [_number] then gives the entry's number, or
    [undefined] on the inherited member, or throws on [undefined]. *)
Definition patchset_of (change : Change) : Completion (option Number) :=
  let currentRev := String_of (current_revision change) in
  match revisions change with
  | None => Throw (Error (TypeError_read_undefined currentRev))
  | Some revs =>
      match revision_at revs currentRev with
      | Some revisionData => Normal (Some (patchset_number revisionData))
      | None =>
          if Object_prototype_has currentRev
          then Normal None
          else Throw (Error (TypeError_read_undefined "_number"))
      end
  end.

(** [case "sync_gerrit_to_local"]: one turn of the loop over [changes].
    A [TypeError] of the reads before the [try] leaves the loop. *)
Definition sync_iteration (change : Change) (results : list string)
  : M (list string) :=
  patchset <- lift (patchset_of change) ;;
  try_catch
    (download_and_apply change patchset ;;;
     ret (push results (synced_line change patchset)))
    (fun e => ret (push results (sync_failed_line change e))).

Fixpoint sync_loop (changes : list Change) (results : list string)
  : M (list string) :=
  match changes with
  | [] => ret results
  | change :: rest =>
      results' <- sync_iteration change results ;;
      sync_loop rest results'
  end.

Definition sync_params (query : string) : JSValue :=
  JSObj [("q", JSStr query); ("o", JSArr [JSStr "CURRENT_REVISION"])].

Definition sync_gerrit_to_local (args : JSValue) : M ToolResponse :=
  a <- parse "SyncGerritSchema" SyncGerritSchema args ;;
  let '(topic, changeId) := a in
  query <- sync_query topic changeId ;;
  r <- gerritApi_get "/changes/" (sync_params query) true ;;
  match as_changes (data r) with
  | None | Some [] => ret {| text := "No changes found."; isError := false |}
  | Some changes =>
      results <- sync_loop changes [] ;;
      ret {| text := join LF results; isError := false |}
  end.

(** [switch (name)] *)
Definition tool_switch (name : string) (args : JSValue) : M ToolResponse :=
  if String.eqb name "list_changes" then list_changes args
  else if String.eqb name "get_change_detail" then get_change_detail args
  else if String.eqb name "set_review" then set_review args
  else if String.eqb name "submit_changes" then submit_changes args
  else if String.eqb name "batch_review_submit_by_topic"
       then batch_review_submit_by_topic args
  else if String.eqb name "sync_gerrit_to_local" then sync_gerrit_to_local args
  else throw (Error ("Unknown tool: " ++ name)).

(** [error.response?.data?.message || error.message] *)
Definition errorMessage (error : JSError) : JSValue :=
  or_else (optional_get (response_data error) "message") (message error).

(** The body of the handler's [catch]. *)
Definition error_response (error : JSError) : M ToolResponse :=
  text <- template (errorMessage error) ;;
  ret {| text := "Error: " ++ text; isError := true |}.

(** The handler: the [switch] inside [try], and the [catch] that turns a
    thrown error into an error result.  A [Throw] completion of the
    handler is an exception that leaves it. *)
Definition CallToolRequest_handler (name : string) (args : JSValue) : M ToolResponse :=
  try_catch (tool_switch name args) error_response.

(** ** Vocabulary of the properties *)

(** The changes queries of the two batch tools. *)
Definition batch_list_request (topic : string) : Request :=
  {| method := GET; url := "/changes/"; params := batch_query topic;
     body := JSUndefined; keep_raw := false |}.

Definition sync_list_request (query : string) : Request :=
  {| method := GET; url := "/changes/"; params := sync_params query;
     body := JSUndefined; keep_raw := true |}.

(** The events of a complete vote-then-submit on one change. *)
Definition vote_steps (voteVerified voteReview : Number) (change : Change)
  : list Event :=
  [ HttpRequest (review_request (_number change) voteVerified voteReview);
    Timeout 500;
    HttpRequest (submit_request (_number change)) ].

(** The state in which the submit of a change is posted, when its review
    was posted in [st] without error. *)
Definition after_vote (voteVerified voteReview : Number) (change : Change)
  (st : State) : State :=
  snd (sleep 500
         (snd (gerritApi (review_request (_number change) voteVerified voteReview) st))).

(** The patch set number in the own entry of [revisions] for the current
    revision, when the change has that entry. *)
Definition current_patchset (change : Change) : option Number :=
  match revisions change with
  | Some revs =>
      option_map patchset_number (revision_at revs (String_of (current_revision change)))
  | None => None
  end.

(** The action of the sync loop on one change: the reads before the
    [try], then the calls inside it. *)
Definition sync_item (change : Change) : M unit :=
  patchset <- lift (patchset_of change) ;;
  download_and_apply change patchset.

(** The events of a download-and-apply on one change whose current
    revision has its entry. *)
Definition sync_steps (change : Change) : list Event :=
  match current_patchset change with
  | Some patchset =>
      let cmd := repo_download (project change) (_number change) (Some patchset) in
      [ ConsoleError ("Executing: " ++ cmd); ExecSync cmd ]
  | None => []
  end.

(** The success line of such a change. *)
Definition synced_line_of (change : Change) : string :=
  match current_patchset change with
  | Some patchset => synced_line change (Some patchset)
  | None => EmptyString
  end.

(** The failure detail of an error can be converted to text. *)
Definition renders (e : JSError) : Prop := ToString (failure_detail e) <> None.

(** The text of a failure detail, for an error that [renders]. *)
Definition detail_text (e : JSError) : string :=
  match ToString (failure_detail e) with Some text => text | None => EmptyString end.

(** The failure line of the vote-then-submit loop for such an error. *)
Definition batch_failed_line_of (change : Change) (e : JSError) : string :=
  batch_failed_line change (detail_text e).

(** No failure among the outcomes has a detail without text. *)
Definition outcome_renders (outcome : option JSError) : Prop :=
  match outcome with Some e => renders e | None => True end.

(** What happens to each item when its turn comes: the per-item action is
    run on the items in order, each in the state its predecessor left;
    [None] records a normal completion and [Some e] the error raised. *)
Fixpoint run_items (steps : Change -> M unit) (changes : list Change) (st : State)
  : list (option JSError) * State :=
  match changes with
  | [] => ([], st)
  | change :: rest =>
      let (r, st') := steps change st in
      let (outcomes, st'') := run_items steps rest st' in
      (match r with Normal _ => None | Throw e => Some e end :: outcomes, st'')
  end.

Definition item_outcomes (steps : Change -> M unit) (changes : list Change)
  (st : State) : list (option JSError) :=
  fst (run_items steps changes st).

(** Of [n] items, only item [k] (counted from 0) fails, with error [e]. *)
Definition one_failure (n k : nat) (e : JSError) : list (option JSError) :=
  (repeat None k ++ Some e :: repeat None (n - S k))%list.

(** The line of an item by its outcome. *)
Definition report_line (ok : Change -> string) (failed : Change -> JSError -> string)
  (change : Change) (outcome : option JSError) : string :=
  match outcome with
  | None => ok change
  | Some e => failed change e
  end.

(** The lines of a report: one per item, by its outcome. *)
Definition report (ok : Change -> string) (failed : Change -> JSError -> string)
  (changes : list Change) (outcomes : list (option JSError)) : list string :=
  map (fun p => report_line ok failed (fst p) (snd p)) (combine changes outcomes).

(** The current revision of a change has an entry in its revisions. *)
Definition resolves (change : Change) : Prop := current_patchset change <> None.



(** ** Advertised tools (index.ts, ListToolsRequestSchema handler) *)

(** The [type] of an advertised argument, with the item type of an array
    and the value type of an object ([additionalProperties]). *)
Inductive ArgType : Type :=
| TString
| TNumber
| TArrayOf (item : ArgType)
| TObjectOf (value : ArgType).

(** One entry of [inputSchema.properties]. *)
Record Property : Type := mkProperty {
  prop_name : string;
  prop_type : ArgType;
  prop_description : string;
  prop_default : option JSValue
}.

(** One entry of the [tools] array. *)
Record Tool : Type := mkTool {
  tool_name : string;
  tool_description : string;
  properties : list Property;
  required : list string
}.

Definition ListTools : list Tool :=
  [ {| tool_name := "list_changes";
       tool_description := "List Gerrit changes based on a query";
       properties :=
         [ mkProperty "query" TString
             "Gerrit query string (e.g., 'status:open owner:self')"
             (Some (JSStr "status:open"));
           mkProperty "limit" TNumber "Maximum number of results"
             (Some (JSNum (Number_ofZ 10))) ];
       required := [] |};
    {| tool_name := "get_change_detail";
       tool_description := "Get detailed information about a specific Gerrit change";
       properties :=
         [ mkProperty "changeId" TString "The change ID (numeric or triplet ID)" None ];
       required := ["changeId"] |};
    {| tool_name := "set_review";
       tool_description := "Post a review to a Gerrit change";
       properties :=
         [ mkProperty "changeId" TString "The change ID" None;
           mkProperty "revisionId" TString "The revision ID or 'current'"
             (Some (JSStr "current"));
           mkProperty "message" TString "The review message" None;
           mkProperty "labels" (TObjectOf TNumber)
             "Review labels (e.g., {'Code-Review': 1, 'Verified': 1})" None ];
       required := ["changeId"] |};
    {| tool_name := "submit_changes";
       tool_description := "Submit (merge) one or more Gerrit changes";
       properties :=
         [ mkProperty "changeIds" (TArrayOf TString) "Array of change IDs to submit"
             None ];
       required := ["changeIds"] |};
    {| tool_name := "batch_review_submit_by_topic";
       tool_description := "Vote +1/+2 and then submit all open changes in a topic";
       properties :=
         [ mkProperty "topic" TString "The Gerrit topic name" None;
           mkProperty "voteVerified" TNumber "Verified score"
             (Some (JSNum (Number_ofZ 1)));
           mkProperty "voteReview" TNumber "Code-Review score"
             (Some (JSNum (Number_ofZ 2))) ];
       required := ["topic"] |};
    {| tool_name := "sync_gerrit_to_local";
       tool_description :=
         "Sync changes from Gerrit and use 'repo download' to apply them locally";
       properties :=
         [ mkProperty "topic" TString "The Gerrit topic to sync" None;
           mkProperty "changeId" TString "The specific Change ID or number to sync"
             None ];
       required := [] |} ].

(** ** Startup (index.ts, "Initialize Gerrit client configuration") *)

(** The three variables of [process.env] the server reads. *)
Record Env : Type := mkEnv {
  GERRIT_HOST : option string;
  GERRIT_USER : option string;
  GERRIT_PASSWORD : option string
}.

(** [s.replace(/\/$/, "")]: a slash that ends the string is removed. *)
Fixpoint strip_trailing_slash (s : string) : string :=
  match s with
  | EmptyString => EmptyString
  | String c rest =>
      match rest with
      | EmptyString => if Ascii.eqb c "/"%char then EmptyString else s
      | String _ _ => String c (strip_trailing_slash rest)
      end
  end.

(** The configuration handed to [axios.create]. *)
Record ClientConfig : Type := mkClientConfig {
  baseURL : string;
  auth_username : string;
  auth_password : string
}.

(** How the module's top level goes on: [process.exit(code)] after a line
    on stderr, or the client is created. *)
Inductive Startup : Type :=
| Exit (code : Z) (stderr : string)
| Created (config : ClientConfig).

Definition startup (env : Env) : Startup :=
  let gerritHost := GERRIT_HOST env in
  let gerritUser := GERRIT_USER env in
  let gerritPassword := GERRIT_PASSWORD env in
  if negb (truthy gerritHost) || negb (truthy gerritUser) || negb (truthy gerritPassword)
  then Exit 1
         "Missing required environment variables: GERRIT_HOST, GERRIT_USER, GERRIT_PASSWORD"
  else Created
         {| baseURL :=
              strip_trailing_slash (String_of gerritHost) ++ "/a";
            auth_username := String_of gerritUser;
            auth_password := String_of gerritPassword |}.

(** ** The handler of the four-tool version of index.ts *)

Definition registered_tools_v1 : list string :=
  [ "list_changes"; "get_change_detail"; "set_review"; "sync_gerrit_to_local" ].

(** [switch (name)], with the four cases of that version. *)
Definition tool_switch_v1 (name : string) (args : JSValue) : M ToolResponse :=
  if String.eqb name "list_changes" then list_changes args
  else if String.eqb name "get_change_detail" then get_change_detail args
  else if String.eqb name "set_review" then set_review args
  else if String.eqb name "sync_gerrit_to_local" then sync_gerrit_to_local args
  else throw (Error ("Unknown tool: " ++ name)).

Definition CallToolRequest_handler_v1 (name : string) (args : JSValue)
  : M ToolResponse :=
  try_catch (tool_switch_v1 name args) error_response.

(** ** More vocabulary *)

(** The requests of the three tools that make a single call. *)
Definition list_changes_request (query : option string) (limit : option Number)
  : Request :=
  {| method := GET; url := "/changes/";
     params := JSObj [("q", optional_value JSStr query);
                      ("n", optional_value JSNum limit)];
     body := JSUndefined; keep_raw := true |}.

Definition detail_request (changeId : string) : Request :=
  {| method := GET; url := "/changes/" ++ changeId ++ "/detail";
     params := JSObj [("o", JSArr [JSStr "CURRENT_REVISION"; JSStr "CURRENT_COMMIT";
                                   JSStr "LABELS"])];
     body := JSUndefined; keep_raw := true |}.

Definition review_post_request (changeId revisionId : string) (msg : option string)
  (labels : option (list (string * Number))) : Request :=
  {| method := POST;
     url := "/changes/" ++ changeId ++ "/revisions/" ++ revisionId ++ "/review";
     params := JSUndefined;
     body := JSObj [("message", optional_value JSStr msg);
                    ("labels",
                     optional_value
                       (fun l => JSObj (map (fun kv => (fst kv, JSNum (snd kv))) l))
                       labels)];
     keep_raw := true |}.

(** The call of a single-call tool on arguments its schema accepts, and
    the result it builds from the answer. *)
Definition single_call (name : string) (args : JSValue)
  : option (Request * (AxiosResponse -> ToolResponse)) :=
  if String.eqb name "list_changes" then
    match ListChangesSchema args with
    | Some (query, limit) =>
        Some (list_changes_request query limit,
              fun r => {| text := JSON_stringify (data r); isError := false |})
    | None => None
    end
  else if String.eqb name "get_change_detail" then
    match GetChangeSchema args with
    | Some changeId =>
        Some (detail_request changeId,
              fun r => {| text := JSON_stringify (data r); isError := false |})
    | None => None
    end
  else if String.eqb name "set_review" then
    match SetReviewSchema args with
    | Some (changeId, revisionId, msg, labels) =>
        Some (review_post_request changeId revisionId msg labels,
              fun _ => {| text := "Successfully posted review to " ++ changeId;
                          isError := false |})
    | None => None
    end
  else None.

(** The schema a tool parses its arguments with: its name, and whether it
    accepts [args]. *)
Definition is_some {A : Type} (o : option A) : bool :=
  match o with Some _ => true | None => false end.

Definition schema_name (name : string) : string :=
  if String.eqb name "list_changes" then "ListChangesSchema"
  else if String.eqb name "get_change_detail" then "GetChangeSchema"
  else if String.eqb name "set_review" then "SetReviewSchema"
  else if String.eqb name "submit_changes" then "SubmitChangesSchema"
  else if String.eqb name "batch_review_submit_by_topic" then "BatchReviewSubmitSchema"
  else if String.eqb name "sync_gerrit_to_local" then "SyncGerritSchema"
  else EmptyString.

Definition accepts (name : string) (args : JSValue) : bool :=
  if String.eqb name "list_changes" then is_some (ListChangesSchema args)
  else if String.eqb name "get_change_detail" then is_some (GetChangeSchema args)
  else if String.eqb name "set_review" then is_some (SetReviewSchema args)
  else if String.eqb name "submit_changes" then is_some (SubmitChangesSchema args)
  else if String.eqb name "batch_review_submit_by_topic"
       then is_some (BatchReviewSubmitSchema args)
  else if String.eqb name "sync_gerrit_to_local" then is_some (SyncGerritSchema args)
  else false.

(** Two argument values parse alike under the schema of the tool. *)
Definition same_parse (name : string) (args args' : JSValue) : Prop :=
  if String.eqb name "list_changes"
  then ListChangesSchema args = ListChangesSchema args'
  else if String.eqb name "get_change_detail"
  then GetChangeSchema args = GetChangeSchema args'
  else if String.eqb name "set_review"
  then SetReviewSchema args = SetReviewSchema args'
  else if String.eqb name "submit_changes"
  then SubmitChangesSchema args = SubmitChangesSchema args'
  else if String.eqb name "batch_review_submit_by_topic"
  then BatchReviewSubmitSchema args = BatchReviewSubmitSchema args'
  else if String.eqb name "sync_gerrit_to_local"
  then SyncGerritSchema args = SyncGerritSchema args'
  else True.




End Server.

Arguments Normal {num A} a.
Arguments Throw {num A} e.

(** ** A scripted runtime *)

(** Integers as numbers, printed in decimal. *)
Definition Z_number : JSNumber :=
  {| Number := Z;
     Number_ofZ := fun z => z;
     Number_toString := fun z => NilZero.string_of_int (Z.to_int z);
     Number_toBoolean := fun z => negb (Z.eqb z 0) |}.

Section Scripted.

Local Existing Instance Z_number.

(** A change object of a parsed answer read into [Change]; the revision
    fields are only present when the query asked for them. *)
Definition decode_revision (kv : string * JSValue) : option (string * RevisionInfo) :=
  match optional_get (snd kv) "_number" with
  | JSNum n => Some (fst kv, {| patchset_number := n |})
  | _ => None
  end.

Definition decode_revisions (v : JSValue)
  : option (option (list (string * RevisionInfo))) :=
  match v with
  | JSObj revs => option_map Some (all_of decode_revision revs)
  | JSUndefined => Some None
  | _ => None
  end.

Definition decode_change (v : JSValue) : option Change :=
  match optional_get v "_number", optional_get v "project", optional_get v "subject",
        z_optional z_string (optional_get v "current_revision"),
        decode_revisions (optional_get v "revisions") with
  | JSNum n, JSStr p, JSStr s, Some rev, Some revs => Some (mkChange n p s rev revs)
  | _, _, _, _, _ => None
  end.

Definition decode_changes (v : JSValue) : option (list Change) :=
  match v with
  | JSArr items => all_of decode_change items
  | _ => None
  end.

(** JSON text of a value (compact, strings without escapes). *)
Fixpoint print_json (v : JSValue) : string :=
  match v with
  | JSUndefined => "undefined"
  | JSNull => "null"
  | JSBool true => "true"
  | JSBool false => "false"
  | JSNum n => Number_toString n
  | JSStr s => DQ ++ s ++ DQ
  | JSArr items => "[" ++ join "," (map print_json items) ++ "]"
  | JSObj fields =>
      "{" ++ join "," (map (fun kv => match kv with
                                      | (k, x) => DQ ++ k ++ DQ ++ ":" ++ print_json x
                                      end) fields) ++ "}"
  end.

(** The names of the properties of [Object.prototype]. *)
Definition Object_prototype_names : list string :=
  [ "constructor"; "hasOwnProperty"; "isPrototypeOf"; "propertyIsEnumerable";
    "toLocaleString"; "toString"; "valueOf"; "__proto__"; "__defineGetter__";
    "__defineSetter__"; "__lookupGetter__"; "__lookupSetter__" ].

(** A runtime whose world is the number of calls answered so far: the
    [n]-th call is answered by the [n]-th entry of [http] or [exec], and
    [JSON.parse] knows the texts of [payloads]. *)
Definition scripted (payloads : list JSValue)
  (http : list (AxiosResponse + JSError)) (exec : list (option string)) : Runtime :=
  {| JSON_parse := fun text =>
       match find (fun v => String.eqb (print_json v) text) payloads with
       | Some v => inl v
       | None => inr "Unexpected token in JSON"
       end;
     JSON_stringify := print_json;
     ZodError_message := fun name _ => "Invalid arguments for " ++ name;
     TypeError_to_primitive := "Cannot convert object to primitive value";
     TypeError_read_undefined := fun key =>
       "Cannot read properties of undefined (reading '" ++ key ++ "')";
     Object_prototype_has := fun key => existsb (String.eqb key) Object_prototype_names;
     as_changes := decode_changes;
     World := nat;
     World_http := fun _ n => (nth n http (inr (Error "Network Error")), S n);
     World_exec := fun _ n => (nth n exec None, S n);
     World_sleep := fun _ n => n |}.

(** The start of a scripted run: no call answered, nothing traced. *)
Definition start (rt : Runtime) (w : @World _ rt) : @State _ rt :=
  {| world := w; trace := [] |}.

(** *** Scenario data *)

Definition change_json (n : Z) (proj subj rev : string) (patchset : Z) : JSValue :=
  JSObj [("_number", JSNum n); ("project", JSStr proj); ("subject", JSStr subj);
         ("current_revision", JSStr rev);
         ("revisions", JSObj [(rev, JSObj [("_number", JSNum patchset)])])].

Definition three_changes : JSValue :=
  JSArr [change_json 41 "tools" "Add lint" "a1" 2;
         change_json 42 "tools" "Fix build" "b7" 1;
         change_json 43 "docs" "Update guide" "c3" 4].

Definition two_changes : JSValue :=
  JSArr [change_json 41 "tools" "Add lint" "a1" 2;
         change_json 42 "tools" "Fix build" "b7" 1].

(** The second change of these answers, as the handler reads it. *)
Definition change42 : Change :=
  {| _number := 42%Z; project := "tools"; subject := "Fix build";
     current_revision := Some "b7";
     revisions := Some [("b7", {| patchset_number := 1%Z |})] |}.

(** A body as Gerrit sends it: the prefix, then the JSON text. *)
Definition gerrit_body (v : JSValue) : AxiosResponse :=
  {| data := JSStr (XSSI_PREFIX ++ print_json v) |}.

Definition accepted : AxiosResponse + JSError := inl (gerrit_body (JSObj [])).

(** A rejection whose body is plain text, as Gerrit sends its errors. *)
Definition rejected_text (reason : string) : AxiosResponse + JSError :=
  inr {| response := Some {| data := JSStr reason |};
         message := "Request failed with status code 409" |}.

(** A rejection whose body is a JSON object with a [message] field. *)
Definition rejected_json (reason : string) : AxiosResponse + JSError :=
  inr {| response := Some (gerrit_body (JSObj [("message", JSStr reason)]));
         message := "Request failed with status code 409" |}.


Definition topic_args (topic : string) : JSValue := JSObj [("topic", JSStr topic)].

(** The state of a scripted run after [n] answered calls, with the trace
    left out. *)
Definition after_calls (rt : Runtime) (n : @World _ rt) : @State _ rt :=
  {| world := n; trace := [] |}.

(** Topic [feature-x] resolves to two changes; every call is accepted. *)
Definition all_accepted_run : Runtime :=
  scripted [two_changes; JSObj []]
    [inl (gerrit_body two_changes); accepted; accepted; accepted; accepted]
    [].

(** Topic [feature-x] resolves to three changes; the review of the second
    one is rejected. *)
Definition vote_rejected_run : Runtime :=
  scripted [three_changes; JSObj []]
    [inl (gerrit_body three_changes);
     accepted; accepted;
     rejected_text "change is closed";
     accepted; accepted]
    [].

(** Topic [feature-x] resolves to two changes; the submit of the second one
    is rejected with the plain-text body [merge conflict]. *)
Definition submit_rejected_run : Runtime :=
  scripted [two_changes; JSObj []]
    [inl (gerrit_body two_changes);
     accepted; accepted;
     accepted; rejected_text "merge conflict"]
    [].


(** Three changes to sync; [repo download] fails on the second one. *)
Definition download_fails_run : Runtime :=
  scripted [three_changes]
    [inl (gerrit_body three_changes)]
    [None; None; Some "Command failed: repo download tools 42/1"; None].

(** Two changes to sync; the answer holds no revision entry for the
    current revision of the second one. *)
Definition unresolved_changes : JSValue :=
  JSArr [change_json 41 "tools" "Add lint" "a1" 2;
         JSObj [("_number", JSNum 42%Z); ("project", JSStr "tools");
                ("subject", JSStr "Fix build"); ("current_revision", JSStr "b7");
                ("revisions", JSObj [])]].

(** The first change of the answers, as the handler reads it. *)
Definition change41 : Change :=
  {| _number := 41%Z; project := "tools"; subject := "Add lint";
     current_revision := Some "a1";
     revisions := Some [("a1", {| patchset_number := 2%Z |})] |}.

Definition unresolved_run : Runtime :=
  scripted [unresolved_changes] [inl (gerrit_body unresolved_changes)] [None; None].

(** The first call is rejected with a plain-text body. *)
Definition first_call_rejected_run : Runtime :=
  scripted [] [rejected_text "change is locked"] [].

(** The query resolves to nothing. *)
Definition nothing_found_run : Runtime :=
  scripted [JSArr []] [inl (gerrit_body (JSArr []))] [].

(** The first call is rejected with a JSON body holding a [message]. *)
Definition first_call_rejected_json_run : Runtime :=
  scripted [JSObj [("message", JSStr "Not found: 99")]]
    [rejected_json "Not found: 99"] [].

(** The first call is answered with the two changes. *)
Definition first_call_answered_run : Runtime :=
  scripted [two_changes] [inl (gerrit_body two_changes)] [None; None; None].

(** The first call is answered with a prefixed body that is no JSON. *)
Definition garbled_answer_run : Runtime :=
  scripted [] [inl {| data := JSStr ")]}'<html>" |}] [].

(** Three submits; the second is rejected. *)
Definition second_submit_rejected_run : Runtime :=
  scripted [JSObj []] [accepted; rejected_text "change is closed"; accepted] [].

Definition three_ids : JSValue :=
  JSObj [("changeIds", JSArr [JSStr "41"; JSStr "42"; JSStr "43"])].

(** The third change of [three_changes], as the handler reads it. *)
Definition change43 : Change :=
  {| _number := 43%Z; project := "docs"; subject := "Update guide";
     current_revision := Some "c3";
     revisions := Some [("c3", {| patchset_number := 4%Z |})] |}.

(** *** Values without text, and changes whose patch set cannot be read *)

(** A JSON object with an own [toString] entry: it has no text. *)
Definition without_text : JSValue := JSObj [("toString", JSNum 0%Z)].

(** A rejection whose body is the JSON text of [v]. *)
Definition rejected_body (v : JSValue) : AxiosResponse + JSError :=
  inr {| response := Some (gerrit_body v);
         message := "Request failed with status code 409" |}.

(** Topic [feature-x] resolves to three changes; the submit of the second
    one is rejected with a body that has no text. *)
Definition submit_rejected_without_text_run : Runtime :=
  scripted [three_changes; JSObj []; without_text]
    [inl (gerrit_body three_changes);
     accepted; accepted;
     accepted; rejected_body without_text;
     accepted; accepted]
    [].


(** The first call is rejected with a JSON body whose [message] entry has
    no text. *)
Definition message_without_text : JSValue := JSObj [("message", without_text)].

Definition rejected_message_without_text_run : Runtime :=
  scripted [message_without_text] [rejected_body message_without_text] [].

(** A change object with the given current revision and revisions. *)
Definition change_with (n : Z) (proj subj : string) (rev revs : JSValue) : JSValue :=
  JSObj [("_number", JSNum n); ("project", JSStr proj); ("subject", JSStr subj);
         ("current_revision", rev); ("revisions", revs)].

(** Three changes to sync; the answer holds no revision entry for the
    current revision of the second one. *)
Definition second_of_three_unresolved : JSValue :=
  JSArr [change_json 41 "tools" "Add lint" "a1" 2;
         change_with 42 "tools" "Fix build" (JSStr "b7") (JSObj []);
         change_json 43 "docs" "Update guide" "c3" 4].

Definition second_of_three_unresolved_run : Runtime :=
  scripted [second_of_three_unresolved] [inl (gerrit_body second_of_three_unresolved)]
    [None; None; None].

(** The second change as the handler reads it. *)
Definition change42_unresolved : Change :=
  {| _number := 42%Z; project := "tools"; subject := "Fix build";
     current_revision := Some "b7"; revisions := Some [] |}.

(** Two changes to sync; the second one has no [revisions] at all. *)
Definition second_without_revisions : JSValue :=
  JSArr [change_json 41 "tools" "Add lint" "a1" 2;
         JSObj [("_number", JSNum 42%Z); ("project", JSStr "tools");
                ("subject", JSStr "Fix build"); ("current_revision", JSStr "b7")]].

Definition second_without_revisions_run : Runtime :=
  scripted [second_without_revisions] [inl (gerrit_body second_without_revisions)]
    [None; None].

(** One change to sync; its current revision is named [constructor] and
    has no entry. *)
Definition revision_named_constructor : JSValue :=
  JSArr [change_with 42 "tools" "Fix build" (JSStr "constructor")
           (JSObj [("b7", JSObj [("_number", JSNum 1%Z)])])].

Definition revision_named_constructor_run : Runtime :=
  scripted [revision_named_constructor] [inl (gerrit_body revision_named_constructor)]
    [None].


(** The tool entry of [get_change_detail] and the [query] property of
    [list_changes], as [ListTools] holds them. *)
Definition detail_tool : Tool :=
  nth 1 ListTools (mkTool EmptyString EmptyString [] []).

Definition query_property : Property :=
  mkProperty "query" TString "Gerrit query string (e.g., 'status:open owner:self')"
    (Some (JSStr "status:open")).

End Scripted.

(** * Properties *)

Section Properties.

Context {num : JSNumber} {rt : Runtime}.

Lemma substring_whole (s : string) : String.substring 0 (String.length s) s = s.
Proof.
  induction s as [| c s IH]; simpl; [reflexivity | now rewrite IH].
Qed.

Lemma substring_from_prefix (rest : string) :
  substring_from 4 (XSSI_PREFIX ++ rest) = rest.
Proof.
  unfold substring_from, XSSI_PREFIX. simpl.
  rewrite Nat.sub_0_r. apply substring_whole.
Qed.

Lemma startsWith_prefix (rest : string) :
  startsWith (XSSI_PREFIX ++ rest) XSSI_PREFIX = true.
Proof.
  unfold startsWith, XSSI_PREFIX. cbn [String.prefix String.append].
  repeat match goal with
         | |- context [Ascii.ascii_dec ?a ?b] =>
             destruct (Ascii.ascii_dec a b); [| congruence]
         end.
  destruct rest; reflexivity.
Qed.

Lemma startsWith_inv (s : string) :
  startsWith s XSSI_PREFIX = true -> exists rest, s = XSSI_PREFIX ++ rest.
Proof.
  unfold startsWith, XSSI_PREFIX.
  do 4 (destruct s as [| ? s]; cbn [String.prefix]; [discriminate |];
        match goal with
        | |- context [Ascii.ascii_dec ?x ?y] =>
            destruct (Ascii.ascii_dec x y); [subst | discriminate]
        end).
  intros _. now exists s.
Qed.

(** C2. The response unwrapper: on a string that begins with the four
    characters of the anti-XSS prefix it returns what [JSON.parse] returns
    (or throws) on the rest of the string; on every other input, a string
    without the prefix or a value that is no string, it returns the input
    itself. *)
Theorem parseGerritResponse_unwraps :
  (forall rest : string,
      parseGerritResponse (JSStr (XSSI_PREFIX ++ rest)) = JSON_parse rest)
  /\ (forall d : JSValue,
         (forall rest : string, d <> JSStr (XSSI_PREFIX ++ rest)) ->
         parseGerritResponse d = inl d).
Proof.
  split.
  - intros rest. unfold parseGerritResponse.
    now rewrite startsWith_prefix, substring_from_prefix.
  - intros d Hd. unfold parseGerritResponse.
    destruct d as [| | b | n | s | items | fields]; try reflexivity.
    destruct (startsWith s XSSI_PREFIX) eqn:E; [| reflexivity].
    apply startsWith_inv in E. destruct E as [rest ->].
    now elim (Hd rest).
Qed.

(** ** The per-item loop, for any action *)

Section Items.

Variable steps : Change -> M unit.
Variable events : Change -> list Event.
Variables (ok : Change -> string) (failed : Change -> JSError -> string).

Hypothesis steps_complete :
  forall c st u st', steps c st = (Normal u, st') ->
                     trace st' = (trace st ++ events c)%list.

Lemma item_outcomes_length (changes : list Change) (st : State) :
  length (item_outcomes steps changes st) = length changes.
Proof.
  unfold item_outcomes. revert st.
  induction changes as [| c rest IH]; intros st; simpl; [reflexivity |].
  destruct (steps c st) as [r st']. specialize (IH st').
  destruct (run_items steps rest st') as [os st'']. simpl in *. now rewrite IH.
Qed.

Lemma report_length (changes : list Change) (st : State) :
  length (report ok failed changes (item_outcomes steps changes st)) = length changes.
Proof.
  unfold report. rewrite length_map, length_combine, item_outcomes_length.
  apply Nat.min_id.
Qed.

Lemma run_items_all_ok (changes : list Change) (st : State) :
  item_outcomes steps changes st = repeat None (length changes) ->
  trace (snd (run_items steps changes st)) = (trace st ++ flat_map events changes)%list
  /\ report ok failed changes (item_outcomes steps changes st) = map ok changes.
Proof.
  unfold item_outcomes, report. revert st.
  induction changes as [| c rest IH]; intros st; simpl.
  - intros _. now rewrite app_nil_r.
  - destruct (steps c st) as [r st'] eqn:E. specialize (IH st').
    destruct (run_items steps rest st') as [os st'']. simpl in *.
    intros H. injection H as Hr Hos.
    destruct r as [u | e]; [| discriminate].
    destruct (IH Hos) as [Ht Hl].
    rewrite Ht, (steps_complete _ _ _ _ E), <- app_assoc, Hos.
    split; [reflexivity |]. rewrite Hos in Hl. now rewrite Hl.
Qed.


End Items.

(** ** The calls of one item *)

Lemma gerritApi_trace (req : Request) (st : State) :
  trace (snd (gerritApi req st)) = (trace st ++ [HttpRequest req])%list.
Proof.
  unfold gerritApi. destruct (World_http req (world st)) as [[r | err] w]; reflexivity.
Qed.

Lemma vote_then_submit_cases (vV vR : Number) (c : Change) (st : State) :
  let review := review_request (_number c) vV vR in
  let submit := submit_request (_number c) in
  match vote_then_submit vV vR c st with
  | (Normal _, st') => trace st' = (trace st ++ vote_steps vV vR c)%list
  | (Throw e, st') =>
      (fst (gerritApi review st) = Throw e
       /\ trace st' = (trace st ++ [HttpRequest review])%list)
      \/ ((exists r, fst (gerritApi review st) = Normal r)
          /\ fst (gerritApi submit (after_vote vV vR c st)) = Throw e
          /\ trace st' = (trace st ++ vote_steps vV vR c)%list)
  end.
Proof.
  cbv zeta. unfold vote_then_submit, after_vote, bind, ret, vote_steps.
  pose proof (gerritApi_trace (review_request (_number c) vV vR) st) as T1.
  destruct (gerritApi (review_request (_number c) vV vR) st) as [[r | e] s1]; simpl in *.
  - remember (sleep 500 s1) as sl eqn:Esl. unfold sleep, log, push in Esl. subst sl.
    cbv beta iota.
    match goal with
    | |- context [gerritApi ?q ?s] =>
        pose proof (gerritApi_trace q s) as T2; destruct (gerritApi q s) as [[r2 | e2] s2]
    end; simpl in *.
    + unfold log, push in T2. rewrite T2, T1, <- !app_assoc. reflexivity.
    + right. split; [eauto |]. split; [reflexivity |].
      unfold log, push in T2. rewrite T2, T1, <- !app_assoc. reflexivity.
  - left. auto.
Qed.

Lemma vote_then_submit_complete (vV vR : Number) (c : Change) (st : State)
  (u : unit) (st' : State) :
  vote_then_submit vV vR c st = (Normal u, st') ->
  trace st' = (trace st ++ vote_steps vV vR c)%list.
Proof.
  intros E. pose proof (vote_then_submit_cases vV vR c st) as H.
  cbv zeta in H. now rewrite E in H.
Qed.

(** ** Rendering a value inside a template literal *)

Lemma template_run (v : JSValue) (st : State) :
  template v st
  = (match ToString v with
     | Some text => Normal text
     | None => Throw (Error TypeError_to_primitive)
     end, st).
Proof. unfold template. destruct (ToString v); reflexivity. Qed.


Lemma renders_text (e : JSError) :
  renders e -> ToString (failure_detail e) = Some (detail_text e).
Proof.
  unfold renders, detail_text.
  destruct (ToString (failure_detail e)); [reflexivity | intros H; now elim H].
Qed.

Lemma error_response_run (e : JSError) (st : State) :
  error_response e st
  = (match ToString (errorMessage e) with
     | Some text => Normal {| text := "Error: " ++ text; isError := true |}
     | None => Throw (Error TypeError_to_primitive)
     end, st).
Proof.
  unfold error_response, bind. rewrite template_run.
  destruct (ToString (errorMessage e)); reflexivity.
Qed.

(** The handler on a completed and on a thrown [switch]. *)
Lemma handler_normal (name : string) (args : JSValue) (st st' : State)
  (result : ToolResponse) :
  tool_switch name args st = (Normal result, st') ->
  CallToolRequest_handler name args st = (Normal result, st').
Proof. intros H. unfold CallToolRequest_handler, try_catch. now rewrite H. Qed.

Lemma handler_throw (name : string) (args : JSValue) (st st' : State) (e : JSError) :
  tool_switch name args st = (Throw e, st') ->
  CallToolRequest_handler name args st = error_response e st'.
Proof. intros H. unfold CallToolRequest_handler, try_catch. now rewrite H. Qed.

(** ** The reads before the [try] of the sync loop *)

Lemma resolves_inv (c : Change) :
  resolves c ->
  exists p, current_patchset c = Some p /\ patchset_of c = Normal (Some p).
Proof.
  unfold resolves, current_patchset, patchset_of.
  destruct (revisions c) as [revs |]; [| intros H; now elim H].
  destruct (revision_at revs _) as [rd |]; [| intros H; now elim H].
  intros _. exists (patchset_number rd). auto.
Qed.

Lemma sync_item_reads (c : Change) (p : option Number) (st : State) :
  patchset_of c = Normal p -> sync_item c st = download_and_apply c p st.
Proof. intros H. unfold sync_item, bind, lift. now rewrite H. Qed.

Lemma sync_iteration_reads (c : Change) (p : option Number) (results : list string)
  (st : State) :
  patchset_of c = Normal p ->
  sync_iteration c results st
  = try_catch
      (bind (download_and_apply c p) (fun _ => ret (push results (synced_line c p))))
      (fun e => ret (push results (sync_failed_line c e))) st.
Proof. intros H. unfold sync_iteration, bind at 1, lift. now rewrite H. Qed.

Lemma sync_iteration_throws (c : Change) (err : JSError) (results : list string)
  (st : State) :
  patchset_of c = Throw err -> sync_iteration c results st = (Throw err, st).
Proof. intros H. unfold sync_iteration, bind at 1, lift. now rewrite H. Qed.

Lemma sync_item_trace (c : Change) (st : State) :
  resolves c ->
  trace (snd (sync_item c st)) = (trace st ++ sync_steps c)%list.
Proof.
  intros Hc. destruct (resolves_inv c Hc) as (p & Ep & Er).
  rewrite (sync_item_reads c (Some p) st Er). unfold sync_steps. rewrite Ep.
  unfold download_and_apply, bind, console_error, execSync, log, push. simpl.
  destruct (World_exec _ _) as [[msg |] w]; simpl; now rewrite <- app_assoc.
Qed.

(** ** The loops of the two batch tools *)

Lemma batch_loop_run (vV vR : Number) (changes : list Change) (results : list string)
  (st : State) :
  Forall outcome_renders (item_outcomes (vote_then_submit vV vR) changes st) ->
  batch_loop vV vR changes results st
  = (Normal (results ++ report processed_line batch_failed_line_of changes
                          (item_outcomes (vote_then_submit vV vR) changes st))%list,
     snd (run_items (vote_then_submit vV vR) changes st)).
Proof.
  unfold item_outcomes, report. revert results st.
  induction changes as [| c rest IH]; intros results st; simpl.
  - intros _. unfold ret. now rewrite app_nil_r.
  - unfold bind at 1. unfold batch_iteration, try_catch, bind at 1.
    destruct (vote_then_submit vV vR c st) as [[u | e] st'].
    + specialize (IH (push results (processed_line c)) st').
      destruct (run_items _ rest st') as [os st'']. simpl in *.
      intros H. inversion H as [| ? ? _ Hos]; subst.
      unfold ret. rewrite (IH Hos). unfold push. now rewrite <- app_assoc.
    + specialize (IH (push results (batch_failed_line_of c e)) st').
      destruct (run_items _ rest st') as [os st'']. simpl in *.
      intros H. inversion H as [| ? ? He Hos]; subst.
      unfold bind. rewrite template_run, (renders_text e He). unfold ret.
      fold (batch_failed_line_of c e).
      rewrite (IH Hos). unfold push. now rewrite <- app_assoc.
Qed.

(** The loop in full: it returns the report when every failure renders,
    and is left by the [TypeError] of the first failure that does not. *)
Lemma batch_loop_cases (vV vR : Number) (changes : list Change)
  (results : list string) (st : State) :
  (Forall outcome_renders (item_outcomes (vote_then_submit vV vR) changes st)
   /\ batch_loop vV vR changes results st
      = (Normal (results ++ report processed_line batch_failed_line_of changes
                              (item_outcomes (vote_then_submit vV vR) changes st))%list,
         snd (run_items (vote_then_submit vV vR) changes st)))
  \/ (exists (pre : list Change) (c : Change) (post : list Change) (e : JSError)
             (st_c : State),
         changes = (pre ++ c :: post)%list
         /\ Forall outcome_renders (item_outcomes (vote_then_submit vV vR) pre st)
         /\ vote_then_submit vV vR c (snd (run_items (vote_then_submit vV vR) pre st))
            = (Throw e, st_c)
         /\ ToString (failure_detail e) = None
         /\ batch_loop vV vR changes results st
            = (Throw (Error TypeError_to_primitive), st_c)).
Proof.
  revert results st. induction changes as [| c rest IH]; intros results st.
  - left. split; [constructor |]. now apply batch_loop_run.
  - destruct (vote_then_submit vV vR c st) as [[u | e] st'] eqn:E.
    + destruct (IH (push results (processed_line c)) st')
        as [[Hall Hrun] | (pre & c' & post & e' & st_c & -> & Hpre & Hc & He & Hrun)].
      * left. assert (H : Forall outcome_renders
                            (item_outcomes (vote_then_submit vV vR) (c :: rest) st)).
        { unfold item_outcomes in *. simpl. rewrite E.
          destruct (run_items _ rest st'). simpl in *. constructor; [exact I | exact Hall]. }
        split; [exact H | now apply batch_loop_run].
      * right. exists (c :: pre), c', post, e', st_c.
        split; [reflexivity |].
        unfold item_outcomes in *. simpl. rewrite E.
        destruct (run_items _ pre st') as [os st'']. simpl in *.
        split; [constructor; [exact I | exact Hpre] |].
        split; [exact Hc |]. split; [exact He |].
        unfold bind at 1. unfold batch_iteration, try_catch, bind at 1.
        rewrite E. unfold ret. exact Hrun.
    + destruct (ToString (failure_detail e)) as [detail |] eqn:Ed.
      * destruct (IH (push results (batch_failed_line c detail)) st')
          as [[Hall Hrun] | (pre & c' & post & e' & st_c & -> & Hpre & Hc & He & Hrun)].
        -- left. assert (H : Forall outcome_renders
                               (item_outcomes (vote_then_submit vV vR) (c :: rest) st)).
           { unfold item_outcomes in *. simpl. rewrite E.
             destruct (run_items _ rest st'). simpl in *.
             constructor; [unfold outcome_renders, renders; congruence | exact Hall]. }
           split; [exact H | now apply batch_loop_run].
        -- right. exists (c :: pre), c', post, e', st_c.
           split; [reflexivity |].
           unfold item_outcomes in *. simpl. rewrite E.
           destruct (run_items _ pre st') as [os st'']. simpl in *.
           split; [constructor;
                   [unfold outcome_renders, renders; congruence | exact Hpre] |].
           split; [exact Hc |]. split; [exact He |].
           unfold bind at 1. unfold batch_iteration, try_catch, bind at 1.
           rewrite E. unfold bind. rewrite template_run, Ed. unfold ret. exact Hrun.
      * right. exists [], c, rest, e, st'.
        split; [reflexivity |]. split; [constructor |].
        split; [exact E |]. split; [exact Ed |].
        simpl. unfold bind at 1. unfold batch_iteration, try_catch, bind at 1.
        rewrite E. unfold bind. rewrite template_run, Ed. reflexivity.
Qed.

Lemma sync_loop_run (changes : list Change) (results : list string) (st : State) :
  Forall resolves changes ->
  sync_loop changes results st
  = (Normal (results ++ report synced_line_of sync_failed_line changes
                          (item_outcomes sync_item changes st))%list,
     snd (run_items sync_item changes st)).
Proof.
  unfold item_outcomes, report. intros Hall. revert results st.
  induction Hall as [| c rest Hc Hrest IH]; intros results st.
  - simpl. unfold ret. now rewrite app_nil_r.
  - destruct (resolves_inv c Hc) as (p & Ep & Er).
    cbn [sync_loop run_items]. unfold bind at 1.
    rewrite (sync_iteration_reads c (Some p) results st Er),
      (sync_item_reads c (Some p) st Er).
    unfold try_catch, bind at 1.
    destruct (download_and_apply c (Some p) st) as [[u | e] st'];
      unfold ret; rewrite IH; destruct (run_items sync_item rest st') as [os st''];
      simpl; unfold push, synced_line_of; rewrite <- app_assoc, ?Ep; reflexivity.
Qed.

(** In the sync loop every item's command is run, whatever its outcome. *)
Lemma sync_run_trace (changes : list Change) (st : State) :
  Forall resolves changes ->
  trace (snd (run_items sync_item changes st))
  = (trace st ++ flat_map sync_steps changes)%list.
Proof.
  intros Hall. revert st.
  induction Hall as [| c rest Hc Hrest IH]; intros st; simpl.
  - now rewrite app_nil_r.
  - pose proof (sync_item_trace c st Hc) as T.
    destruct (sync_item c st) as [r st']. specialize (IH st').
    destruct (run_items sync_item rest st') as [os st'']. simpl in *.
    now rewrite IH, T, <- app_assoc.
Qed.
(** ** Reports *)









Lemma run_items_snd_cons (steps : Change -> M unit) (c : Change)
  (changes : list Change) (st : State) :
  snd (run_items steps (c :: changes) st)
  = snd (run_items steps changes (snd (steps c st))).
Proof.
  cbn [run_items]. destruct (steps c st) as [r st']. cbn [snd].
  now destruct (run_items steps changes st').
Qed.

(** The report of items that all complete. *)
Lemma report_all_ok (ok : Change -> string) (failed : Change -> JSError -> string)
  (changes : list Change) :
  report ok failed changes (repeat None (length changes)) = map ok changes.
Proof.
  unfold report. induction changes as [| c rest IH]; [reflexivity |].
  cbn [length repeat combine map fst snd report_line]. now rewrite IH.
Qed.


(** The sync loop in full: it returns one line per change when the reads
    before the [try] succeed on every change, and is left by the
    [TypeError] of the first change on which they throw. *)
Lemma sync_loop_cases (changes : list Change) (results : list string) (st : State) :
  (exists lines : list string,
      sync_loop changes results st
      = (Normal (results ++ lines)%list, snd (run_items sync_item changes st))
      /\ Forall2 (fun change line =>
                    exists p, patchset_of change = Normal p
                              /\ (line = synced_line change p
                                  \/ exists e, line = sync_failed_line change e))
           changes lines)
  \/ (exists (pre : list Change) (c : Change) (post : list Change) (err : JSError),
         changes = (pre ++ c :: post)%list
         /\ Forall (fun x => exists p, patchset_of x = Normal p) pre
         /\ patchset_of c = Throw err
         /\ sync_loop changes results st
            = (Throw err, snd (run_items sync_item pre st))).
Proof.
  revert results st. induction changes as [| c rest IH]; intros results st.
  - left. exists []. simpl. unfold ret. rewrite app_nil_r. auto.
  - destruct (patchset_of c) as [p | err] eqn:Ep.
    + assert (Hstep : sync_loop (c :: rest) results st
                      = match download_and_apply c p st with
                        | (Normal _, st') =>
                            sync_loop rest (push results (synced_line c p)) st'
                        | (Throw e, st') =>
                            sync_loop rest (push results (sync_failed_line c e)) st'
                        end).
      { cbn [sync_loop]. unfold bind at 1.
        rewrite (sync_iteration_reads c p results st Ep).
        unfold try_catch, bind at 1.
        now destruct (download_and_apply c p st) as [[u | e] st']. }
      assert (Hitems : forall l,
                 snd (run_items sync_item (c :: l) st)
                 = snd (run_items sync_item l (snd (download_and_apply c p st)))).
      { intros l. rewrite run_items_snd_cons. now rewrite (sync_item_reads c p st Ep). }
      rewrite Hstep.
      destruct (download_and_apply c p st) as [[u | e] st'] eqn:E;
        match goal with
        | |- context [sync_loop rest ?r st'] =>
            destruct (IH r st')
              as [(lines & Hrun & HF)
                 | (pre & c' & post & err & Hrest & Hpre & Hc & Hrun)]
        end.
      * left. exists (synced_line c p :: lines). rewrite Hrun, Hitems.
        unfold push. rewrite <- app_assoc. split; [reflexivity |].
        constructor; [| exact HF]. exists p. auto.
      * right. exists (c :: pre), c', post, err. rewrite Hrest at 1.
        split; [reflexivity |]. split; [constructor; eauto |].
        split; [exact Hc |]. now rewrite Hrun, Hitems.
      * left. exists (sync_failed_line c e :: lines). rewrite Hrun, Hitems.
        unfold push. rewrite <- app_assoc. split; [reflexivity |].
        constructor; [| exact HF]. exists p. eauto.
      * right. exists (c :: pre), c', post, err. rewrite Hrest at 1.
        split; [reflexivity |]. split; [constructor; eauto |].
        split; [exact Hc |]. now rewrite Hrun, Hitems.
    + right. exists [], c, rest, err. split; [reflexivity |].
      split; [constructor |]. split; [exact Ep |].
      cbn [sync_loop]. unfold bind at 1.
      now rewrite (sync_iteration_throws c err results st Ep).
Qed.

(** ** The two batch tools, once the query has resolved *)

Lemma tool_throws_Error (name : string) (args : JSValue) (st st' : State)
  (msg : string) :
  tool_switch name args st = (Throw (Error msg), st') ->
  CallToolRequest_handler name args st
  = (Normal {| text := "Error: " ++ msg; isError := true |}, st').
Proof. intros H. now rewrite (handler_throw _ _ _ _ _ H). Qed.

Lemma batch_tool_resolved (args : JSValue) (topic : string) (vV vR : Number)
  (st st1 : State) (listResp : AxiosResponse) (c : Change) (rest : list Change) :
  BatchReviewSubmitSchema args = Some (topic, vV, vR) ->
  gerritApi_get "/changes/" (batch_query topic) false st = (Normal listResp, st1) ->
  as_changes (data listResp) = Some (c :: rest) ->
  tool_switch "batch_review_submit_by_topic" args st
  = bind (batch_loop vV vR (c :: rest) [])
      (fun results => ret {| text := join LF results; isError := false |}) st1.
Proof.
  intros Hargs Hget Hdata.
  change (tool_switch _ args st) with (batch_review_submit_by_topic args st).
  unfold batch_review_submit_by_topic, parse. rewrite Hargs.
  unfold bind at 1, ret at 1. unfold bind at 1. now rewrite Hget, Hdata.
Qed.

Lemma sync_tool_resolved (args : JSValue) (topic changeId : option string)
  (query : string) (st st1 : State) (r : AxiosResponse) (changes : list Change) :
  SyncGerritSchema args = Some (topic, changeId) ->
  sync_query topic changeId = ret query ->
  gerritApi_get "/changes/" (sync_params query) true st = (Normal r, st1) ->
  as_changes (data r) = Some changes ->
  tool_switch "sync_gerrit_to_local" args st
  = match changes with
    | [] => (Normal {| text := "No changes found."; isError := false |}, st1)
    | _ :: _ =>
        bind (sync_loop changes [])
          (fun results => ret {| text := join LF results; isError := false |}) st1
    end.
Proof.
  intros Hargs Hq Hget Hdata.
  change (tool_switch _ args st) with (sync_gerrit_to_local args st).
  unfold sync_gerrit_to_local, parse. rewrite Hargs.
  unfold bind at 1, ret at 1. rewrite Hq.
  unfold bind at 1, ret at 1. unfold bind at 1. rewrite Hget, Hdata.
  destruct changes; reflexivity.
Qed.

Lemma batch_tool_run (args : JSValue) (topic : string) (vV vR : Number)
  (st st1 : State) (listResp : AxiosResponse) (c : Change) (rest : list Change) :
  BatchReviewSubmitSchema args = Some (topic, vV, vR) ->
  gerritApi_get "/changes/" (batch_query topic) false st = (Normal listResp, st1) ->
  as_changes (data listResp) = Some (c :: rest) ->
  Forall outcome_renders (item_outcomes (vote_then_submit vV vR) (c :: rest) st1) ->
  CallToolRequest_handler "batch_review_submit_by_topic" args st
  = (Normal {| text := join LF (report processed_line batch_failed_line_of (c :: rest)
                                  (item_outcomes (vote_then_submit vV vR) (c :: rest)
                                     st1));
               isError := false |},
     snd (run_items (vote_then_submit vV vR) (c :: rest) st1)).
Proof.
  intros Hargs Hget Hdata Hall. apply handler_normal.
  rewrite (batch_tool_resolved _ _ _ _ _ _ _ _ _ Hargs Hget Hdata).
  unfold bind. now rewrite (batch_loop_run _ _ _ _ _ Hall).
Qed.

Lemma sync_tool_run (args : JSValue) (topic changeId : option string) (query : string)
  (st st1 : State) (r : AxiosResponse) (c : Change) (rest : list Change) :
  SyncGerritSchema args = Some (topic, changeId) ->
  sync_query topic changeId = ret query ->
  gerritApi_get "/changes/" (sync_params query) true st = (Normal r, st1) ->
  as_changes (data r) = Some (c :: rest) ->
  Forall resolves (c :: rest) ->
  CallToolRequest_handler "sync_gerrit_to_local" args st
  = (Normal {| text := join LF (report synced_line_of sync_failed_line (c :: rest)
                                  (item_outcomes sync_item (c :: rest) st1));
               isError := false |},
     snd (run_items sync_item (c :: rest) st1)).
Proof.
  intros Hargs Hq Hget Hdata Hres. apply handler_normal.
  rewrite (sync_tool_resolved _ _ _ _ _ _ _ _ Hargs Hq Hget Hdata).
  unfold bind. now rewrite (sync_loop_run _ _ _ Hres).
Qed.


(** ** One failing item *)




(** C4. When the query of a batch tool resolves to no item (an empty
    array, or a falsy payload), the tool returns the single nothing-found
    text, not flagged as an error, and the changes query is the only call
    it has made: no review, no submit, no external command. *)
Theorem empty_query_reports_nothing_found :
  (forall (args : JSValue) (topic : string) (vV vR : Number) (st st1 : State)
          (listResp : AxiosResponse),
      BatchReviewSubmitSchema args = Some (topic, vV, vR) ->
      gerritApi_get "/changes/" (batch_query topic) false st = (Normal listResp, st1) ->
      as_changes (data listResp) = Some [] \/ as_changes (data listResp) = None ->
      CallToolRequest_handler "batch_review_submit_by_topic" args st
      = (Normal {| text := "No open changes found for topic: " ++ topic;
                   isError := false |}, st1)
      /\ trace st1 = (trace st ++ [HttpRequest (batch_list_request topic)])%list)
  /\ (forall (args : JSValue) (topic changeId : option string) (query : string)
             (st st1 : State) (r : AxiosResponse),
         SyncGerritSchema args = Some (topic, changeId) ->
         sync_query topic changeId = ret query ->
         gerritApi_get "/changes/" (sync_params query) true st = (Normal r, st1) ->
         as_changes (data r) = Some [] \/ as_changes (data r) = None ->
         CallToolRequest_handler "sync_gerrit_to_local" args st
         = (Normal {| text := "No changes found."; isError := false |}, st1)
         /\ trace st1 = (trace st ++ [HttpRequest (sync_list_request query)])%list).
Proof.
  split.
  - intros args topic vV vR st st1 listResp Hargs Hget Hdata. split.
    + apply handler_normal. change (tool_switch _ args st)
        with (batch_review_submit_by_topic args st).
      unfold batch_review_submit_by_topic, parse. rewrite Hargs.
      unfold bind at 1, ret at 1. unfold bind at 1. rewrite Hget.
      destruct Hdata as [-> | ->]; reflexivity.
    + pose proof (gerritApi_trace (batch_list_request topic) st) as T.
      unfold gerritApi_get in Hget. fold (batch_list_request topic) in Hget.
      now rewrite Hget in T.
  - intros args topic changeId query st st1 r Hargs Hq Hget Hdata. split.
    + apply handler_normal. change (tool_switch _ args st)
        with (sync_gerrit_to_local args st).
      unfold sync_gerrit_to_local, parse. rewrite Hargs.
      unfold bind at 1, ret at 1. rewrite Hq.
      unfold bind at 1, ret at 1. unfold bind at 1. rewrite Hget.
      destruct Hdata as [-> | ->]; reflexivity.
    + pose proof (gerritApi_trace (sync_list_request query) st) as T.
      unfold gerritApi_get in Hget. fold (sync_list_request query) in Hget.
      now rewrite Hget in T.
Qed.

Lemma truthy_nonempty (t : string) : t <> EmptyString -> truthy (Some t) = true.
Proof.
  unfold truthy. simpl. intros H.
  destruct (String.eqb_spec t EmptyString); [contradiction | reflexivity].
Qed.


(** ** The handler's [catch] leaves the state alone *)

Lemma handler_state (name : string) (args : JSValue) (st : State) :
  snd (CallToolRequest_handler name args st) = snd (tool_switch name args st).
Proof.
  unfold CallToolRequest_handler, try_catch.
  destruct (tool_switch name args st) as [[result | e] st']; [reflexivity |].
  now rewrite error_response_run.
Qed.

Lemma handler_same_switch (name name' : string) (args args' : JSValue) (st : State) :
  tool_switch name args st = tool_switch name' args' st ->
  CallToolRequest_handler name args st = CallToolRequest_handler name' args' st.
Proof. intros H. unfold CallToolRequest_handler, try_catch. now rewrite H. Qed.

(** ** The selector of the sync tool *)

Lemma sync_item_extends (c : Change) (st : State) :
  exists evs, trace (snd (sync_item c st)) = (trace st ++ evs)%list.
Proof.
  unfold sync_item, bind, lift. destruct (patchset_of c) as [p | err].
  - unfold download_and_apply, bind, console_error, execSync, log, push. simpl.
    destruct (World_exec _ _) as [[msg |] w]; simpl; rewrite <- app_assoc;
      eexists; reflexivity.
  - exists []. now rewrite app_nil_r.
Qed.

Lemma sync_run_extends (changes : list Change) (st : State) :
  exists evs, trace (snd (run_items sync_item changes st)) = (trace st ++ evs)%list.
Proof.
  revert st. induction changes as [| c rest IH]; intros st.
  - exists []. simpl. now rewrite app_nil_r.
  - rewrite run_items_snd_cons.
    destruct (sync_item_extends c st) as [evs1 H1].
    destruct (IH (snd (sync_item c st))) as [evs2 H2].
    exists (evs1 ++ evs2)%list. now rewrite H2, H1, <- app_assoc.
Qed.

Lemma sync_loop_extends (changes : list Change) (results : list string) (st : State) :
  exists evs, trace (snd (sync_loop changes results st)) = (trace st ++ evs)%list.
Proof.
  destruct (sync_loop_cases changes results st)
    as [(lines & -> & _) | (pre & c & post & err & _ & _ & _ & ->)];
    apply sync_run_extends.
Qed.

(** Without an argument record at all, the schema rejects the request;
    again no call is made. *)
Lemma sync_without_arguments (st : State) :
  CallToolRequest_handler "sync_gerrit_to_local" JSUndefined st
  = (Normal {| text := "Error: " ++ ZodError_message "SyncGerritSchema" JSUndefined;
               isError := true |}, st).
Proof. reflexivity. Qed.



(** C10. A request for a tool that is not registered makes no call and is
    answered by the text [Error: Unknown tool: <name>], flagged as an
    error. *)
Theorem unknown_tool_is_an_error (name : string) (args : JSValue) (st : State) :
  ~ In name registered_tools ->
  CallToolRequest_handler name args st
  = (Normal {| text := "Error: Unknown tool: " ++ name; isError := true |}, st).
Proof.
  intros Hname. apply tool_throws_Error. unfold tool_switch.
  repeat match goal with
         | |- context [String.eqb name ?tool] =>
             destruct (String.eqb_spec name tool) as [-> | _];
             [exfalso; apply Hname; simpl; tauto |]
         end.
  reflexivity.
Qed.

Lemma batch_run_calls (vV vR : Number) (changes : list Change) (st : State) :
  exists performed : list (list Event),
    trace (snd (run_items (vote_then_submit vV vR) changes st))
    = (trace st ++ concat performed)%list
    /\ Forall2 (fun change evs =>
                  evs = vote_steps vV vR change
                  \/ evs = [HttpRequest (review_request (_number change) vV vR)])
         changes performed.
Proof.
  revert st. induction changes as [| c rest IH]; intros st; simpl.
  - exists []. simpl. now rewrite app_nil_r.
  - pose proof (vote_then_submit_cases vV vR c st) as H. cbv zeta in H.
    destruct (vote_then_submit vV vR c st) as [r st1].
    destruct (IH st1) as (performed & Ht & HF).
    destruct (run_items (vote_then_submit vV vR) rest st1) as [os st2]. simpl in *.
    destruct r as [u | e]; [| destruct H as [[_ H] | (_ & _ & H)]].
    + exists (vote_steps vV vR c :: performed). simpl.
      rewrite Ht, H, <- app_assoc. auto.
    + exists ([HttpRequest (review_request (_number c) vV vR)] :: performed). simpl.
      rewrite Ht, H, <- app_assoc. auto.
    + exists (vote_steps vV vR c :: performed). simpl.
      rewrite Ht, H, <- app_assoc. auto.
Qed.

(** One turn of the vote-then-submit loop on a failing item. *)
Lemma batch_iteration_failed (vV vR : Number) (change : Change)
  (results : list string) (st st' : State) (e : JSError) :
  vote_then_submit vV vR change st = (Throw e, st') ->
  batch_iteration vV vR change results st
  = (match ToString (failure_detail e) with
     | Some detail => Normal (push results (batch_failed_line change detail))
     | None => Throw (Error TypeError_to_primitive)
     end, st').
Proof.
  intros E. unfold batch_iteration, try_catch, bind at 1. rewrite E.
  unfold bind. rewrite template_run.
  destruct (ToString (failure_detail e)); reflexivity.
Qed.

Lemma batch_iteration_completed (vV vR : Number) (change : Change)
  (results : list string) (st st' : State) (u : unit) :
  vote_then_submit vV vR change st = (Normal u, st') ->
  batch_iteration vV vR change results st
  = (Normal (push results (processed_line change)), st').
Proof.
  intros E. unfold batch_iteration, try_catch, bind at 1. now rewrite E.
Qed.

(** C7. One turn of the vote-then-submit loop makes these calls and no
    other: the review post on the current revision with the labels
    [Verified] and [Code-Review] and the fixed message, then the 500 ms
    wait, then the submit post with [wait_for_merge]; it stops after the
    review post when that post is rejected.  No call is made twice.  The
    turn pushes exactly one line: the success line when the three steps
    complete, the failure line with the detail's text when a post is
    rejected; when that detail has no text the turn throws the
    [TypeError] instead, after the same calls.  The calls of a whole loop
    are the calls of its turns, item after item: of all items when every
    failure has a text, and in any case of the items up to the one the
    loop was left at. *)
Theorem vote_then_submit_sequence :
  (forall (vV vR : Number) (change : Change) (results : list string) (st : State),
      let n := Number_toString (_number change) in
      let review :=
        {| method := POST;
           url := "/changes/" ++ n ++ "/revisions/current/review";
           params := JSUndefined;
           body := JSObj [("labels", JSObj [("Verified", JSNum vV);
                                            ("Code-Review", JSNum vR)]);
                          ("message", JSStr "Batch review and submit by MCP Server")];
           keep_raw := false |} in
      let submit :=
        {| method := POST;
           url := "/changes/" ++ n ++ "/submit";
           params := JSUndefined;
           body := JSObj [("wait_for_merge", JSBool true)];
           keep_raw := false |} in
      let failed_turn (e : JSError) (st' : State) :=
        (match ToString (failure_detail e) with
         | Some detail => Normal (push results (batch_failed_line change detail))
         | None => Throw (Error TypeError_to_primitive)
         end, st') in
      review = review_request (_number change) vV vR
      /\ submit = submit_request (_number change)
      /\ exists st' : State,
           (batch_iteration vV vR change results st
            = (Normal (push results (processed_line change)), st')
            /\ trace st' = (trace st ++ [HttpRequest review; Timeout 500;
                                          HttpRequest submit])%list)
           \/ (exists e,
                  batch_iteration vV vR change results st = failed_turn e st'
                  /\ fst (gerritApi review st) = Throw e
                  /\ trace st' = (trace st ++ [HttpRequest review])%list)
           \/ (exists e r,
                  batch_iteration vV vR change results st = failed_turn e st'
                  /\ fst (gerritApi review st) = Normal r
                  /\ fst (gerritApi submit (after_vote vV vR change st)) = Throw e
                  /\ trace st' = (trace st ++ [HttpRequest review; Timeout 500;
                                                HttpRequest submit])%list))
  /\ (forall (vV vR : Number) (changes : list Change) (st : State),
         Forall outcome_renders (item_outcomes (vote_then_submit vV vR) changes st) ->
         exists (lines : list string) (st' : State) (performed : list (list Event)),
           batch_loop vV vR changes [] st = (Normal lines, st')
           /\ length lines = length changes
           /\ trace st' = (trace st ++ concat performed)%list
           /\ Forall2 (fun change evs =>
                         evs = vote_steps vV vR change
                         \/ evs = [HttpRequest (review_request (_number change) vV vR)])
                changes performed)
  /\ (forall (vV vR : Number) (changes : list Change) (st : State),
         exists (reached later : list Change) (performed : list (list Event)),
           changes = (reached ++ later)%list
           /\ trace (snd (batch_loop vV vR changes [] st))
              = (trace st ++ concat performed)%list
           /\ Forall2 (fun change evs =>
                         evs = vote_steps vV vR change
                         \/ evs = [HttpRequest (review_request (_number change) vV vR)])
                reached performed
           /\ ((exists lines, fst (batch_loop vV vR changes [] st) = Normal lines)
               -> later = [])).
Proof.
  split; [| split].
  - intros vV vR change results st. cbv zeta.
    split; [reflexivity |]. split; [reflexivity |].
    pose proof (vote_then_submit_cases vV vR change st) as H.
    cbv zeta in H.
    destruct (vote_then_submit vV vR change st) as [[u | e] st'] eqn:E.
    + exists st'. left. split; [| exact H].
      exact (batch_iteration_completed _ _ _ _ _ _ _ E).
    + exists st'. right.
      pose proof (batch_iteration_failed _ _ _ results _ _ _ E) as Hit.
      destruct H as [[H1 Ht] | ([r H1] & H2 & Ht)].
      * left. exists e. auto.
      * right. exists e, r. auto.
  - intros vV vR changes st Hall. rewrite (batch_loop_run _ _ _ _ _ Hall).
    destruct (batch_run_calls vV vR changes st) as (performed & Ht & HF).
    eexists _, _, performed. split; [reflexivity |].
    split; [apply report_length |]. auto.
  - intros vV vR changes st.
    destruct (batch_loop_cases vV vR changes [] st)
      as [[Hall Hloop] | (pre & c & post & e & st_c & -> & Hpre & Hc & He & Hloop)].
    + destruct (batch_run_calls vV vR changes st) as (performed & Ht & HF).
      exists changes, [], performed. rewrite app_nil_r, Hloop.
      split; [reflexivity |]. split; [exact Ht |]. split; [exact HF | reflexivity].
    + destruct (batch_run_calls vV vR pre st) as (performed & Ht & HF).
      pose proof (vote_then_submit_cases vV vR c
                    (snd (run_items (vote_then_submit vV vR) pre st))) as H.
      cbv zeta in H. rewrite Hc in H. rewrite Hloop. cbn [fst snd].
      assert (Hcalls : exists evs,
                 trace st_c = (trace st ++ concat (performed ++ [evs]))%list
                 /\ (evs = vote_steps vV vR c
                     \/ evs = [HttpRequest (review_request (_number c) vV vR)])).
      { destruct H as [[_ H] | (_ & _ & H)]; eexists; rewrite H, Ht, concat_app;
          simpl; rewrite app_nil_r, <- app_assoc; split; eauto. }
      destruct Hcalls as (evs & Htrace & Hevs).
      exists (pre ++ [c])%list, post, (performed ++ [evs])%list.
      rewrite <- app_assoc. split; [reflexivity |]. split; [exact Htrace |].
      split; [apply Forall2_app; [exact HF | constructor; [exact Hevs | constructor]] |].
      intros [lines Hl]. discriminate Hl.
Qed.

(** ** Result lines *)



(** ** Failures and the tool boundary *)






Lemma parse_unprefixed (body : string) :
  startsWith body XSSI_PREFIX = false ->
  parseGerritResponse (JSStr body) = inl (JSStr body).
Proof. intros H. unfold parseGerritResponse. now rewrite H. Qed.

Lemma parse_prefixed (rest : string) :
  parseGerritResponse (JSStr (XSSI_PREFIX ++ rest)) = JSON_parse rest.
Proof.
  unfold parseGerritResponse. now rewrite startsWith_prefix, substring_from_prefix.
Qed.

Lemma gerritApi_run (req : Request) (st : State) (r : AxiosResponse + JSError)
  (w : World) :
  World_http req (world st) = (r, w) ->
  gerritApi req st
  = (match r with
     | inl resp => on_fulfilled resp
     | inr error => on_rejected error
     end,
     {| world := w; trace := (trace st ++ [HttpRequest req])%list |}).
Proof. intros Hw. unfold gerritApi. rewrite Hw. now destruct r. Qed.

Lemma single_call_run (name : string) (args : JSValue) (req : Request)
  (k : AxiosResponse -> ToolResponse) (st : State) :
  single_call name args = Some (req, k) ->
  tool_switch name args st = bind (gerritApi req) (fun r => ret (k r)) st.
Proof.
  unfold single_call, tool_switch.
  destruct (String.eqb name "list_changes").
  { unfold list_changes, parse.
    destruct (ListChangesSchema args) as [[query limit] |]; [| discriminate].
    intros H. injection H as <- <-. reflexivity. }
  destruct (String.eqb name "get_change_detail").
  { unfold get_change_detail, parse.
    destruct (GetChangeSchema args) as [changeId |]; [| discriminate].
    intros H. injection H as <- <-. reflexivity. }
  destruct (String.eqb name "set_review").
  { unfold set_review, parse.
    destruct (SetReviewSchema args) as [[[[changeId revisionId] msg] labels] |];
      [| discriminate].
    intros H. injection H as <- <-. reflexivity. }
  discriminate.
Qed.

Lemma on_rejected_throws (err : JSError) : exists e, on_rejected err = Throw e.
Proof.
  unfold on_rejected. destruct (response err) as [r |]; [| eauto].
  destruct (ToBoolean (data r)); [| eauto].
  destruct (parseGerritResponse (data r)); eauto.
Qed.


(** * Further properties *)

(** ** The interceptors *)

(** X1. An answered call goes through the fulfilled interceptor: a
    prefixed body is replaced by its parsed JSON; when the text after the
    prefix is no JSON the call throws the [SyntaxError], which carries no
    response; a body without the prefix, or one that is no string, is
    handed on as it is.  In each case the request is traced once. *)
Theorem answered_call_is_unwrapped (req : Request) (st : State) (body : JSValue)
  (w : World) :
  World_http req (world st) = (inl {| data := body |}, w) ->
  let st' := {| world := w; trace := (trace st ++ [HttpRequest req])%list |} in
  (forall rest v, body = JSStr (XSSI_PREFIX ++ rest) -> JSON_parse rest = inl v ->
                  gerritApi req st = (Normal {| data := v |}, st'))
  /\ (forall rest msg, body = JSStr (XSSI_PREFIX ++ rest) -> JSON_parse rest = inr msg ->
                       gerritApi req st = (Throw (Error msg), st'))
  /\ (forall text, body = JSStr text -> startsWith text XSSI_PREFIX = false ->
                   gerritApi req st = (Normal {| data := body |}, st'))
  /\ ((forall text, body <> JSStr text) ->
      gerritApi req st = (Normal {| data := body |}, st')).
Proof.
  intros Hw st'. rewrite (gerritApi_run _ _ _ _ Hw). unfold on_fulfilled.
  cbn [data]. repeat split.
  - intros rest v -> Hv. now rewrite parse_prefixed, Hv.
  - intros rest msg -> Hm. now rewrite parse_prefixed, Hm.
  - intros text -> Hp. now rewrite (parse_unprefixed text Hp).
  - intros Hns. destruct body; try reflexivity. now elim (Hns s).
Qed.

(** X2. A rejected call goes through the rejected interceptor and always
    throws.  The error is the upstream one, untouched, when it carries no
    response or a falsy body, a body that is no string (one that axios
    has parsed already), or a string without the prefix; its body is
    replaced by the parsed JSON, the message kept, when the body is
    prefixed JSON; and when the text after the prefix is no JSON, the
    [SyntaxError] is thrown in place of the upstream error. *)
Theorem rejected_call_is_unwrapped (req : Request) (st : State) (err : JSError)
  (w : World) :
  World_http req (world st) = (inr err, w) ->
  let st' := {| world := w; trace := (trace st ++ [HttpRequest req])%list |} in
  (exists e, gerritApi req st = (Throw e, st'))
  /\ (response err = None -> gerritApi req st = (Throw err, st'))
  /\ (forall r, response err = Some r -> ToBoolean (data r) = false ->
                gerritApi req st = (Throw err, st'))
  /\ (forall r, response err = Some r -> (forall text, data r <> JSStr text) ->
                gerritApi req st = (Throw err, st'))
  /\ (forall text, response err = Some {| data := JSStr text |} ->
                   startsWith text XSSI_PREFIX = false ->
                   gerritApi req st = (Throw err, st'))
  /\ (forall rest v, response err = Some {| data := JSStr (XSSI_PREFIX ++ rest) |} ->
                     JSON_parse rest = inl v ->
                     gerritApi req st
                     = (Throw {| response := Some {| data := v |};
                                 message := message err |}, st'))
  /\ (forall rest msg, response err = Some {| data := JSStr (XSSI_PREFIX ++ rest) |} ->
                       JSON_parse rest = inr msg ->
                       gerritApi req st = (Throw (Error msg), st')).
Proof.
  intros Hw st'. rewrite (gerritApi_run _ _ _ _ Hw).
  split.
  { destruct (on_rejected_throws err) as [e ->]. now exists e. }
  unfold on_rejected.
  destruct err as [resp m]. cbn [response message]. repeat split.
  - now intros ->.
  - intros r -> Hf. now rewrite Hf.
  - intros [d] -> Hns. cbn [data] in *.
    destruct (ToBoolean d); [| reflexivity].
    destruct d; try reflexivity. now elim (Hns s).
  - intros text -> Hp. cbn [data].
    rewrite (parse_unprefixed text Hp).
    destruct (ToBoolean (JSStr text)); reflexivity.
  - intros rest v -> Hv. cbn [data]. rewrite parse_prefixed, Hv.
    reflexivity.
  - intros rest msg -> Hm. cbn [data]. rewrite parse_prefixed, Hm.
    reflexivity.
Qed.

(** ** The three single-call tools *)


(** X4. What a single-call tool returns for an answered call.  The two
    query tools return the answer's JSON, parsed after the prefix and
    printed again; the review tool returns its acknowledgement whatever
    the parsed answer is.  For all three, an answer whose text after the
    prefix is no JSON gives the flagged text [Error: <SyntaxError
    message>], although the call was made (for the review tool: although
    the review was posted). *)
Theorem single_call_tools_results (name : string) (args : JSValue) (req : Request)
  (k : AxiosResponse -> ToolResponse) (st : State) (rest : string) (w : World) :
  single_call name args = Some (req, k) ->
  World_http req (world st) = (inl {| data := JSStr (XSSI_PREFIX ++ rest) |}, w) ->
  (forall v, JSON_parse rest = inl v ->
             (name <> "set_review" ->
              fst (CallToolRequest_handler name args st)
              = Normal {| text := JSON_stringify v; isError := false |})
             /\ (forall changeId revisionId msg labels,
                    name = "set_review" ->
                    SetReviewSchema args = Some (changeId, revisionId, msg, labels) ->
                    fst (CallToolRequest_handler name args st)
                    = Normal {| text := "Successfully posted review to " ++ changeId;
                                isError := false |}))
  /\ (forall msg, JSON_parse rest = inr msg ->
                  CallToolRequest_handler name args st
                  = (Normal {| text := "Error: " ++ msg; isError := true |},
                     {| world := w; trace := (trace st ++ [HttpRequest req])%list |})).
Proof.
  intros Hcall Hw.
  unfold CallToolRequest_handler, try_catch.
  rewrite (single_call_run _ _ _ _ st Hcall).
  unfold bind, ret. rewrite (gerritApi_run _ _ _ _ Hw). unfold on_fulfilled.
  cbn [data]. rewrite parse_prefixed. split.
  - intros v Hv. rewrite Hv. cbn [fst]. split.
    + intros Hname. unfold single_call in Hcall.
      destruct (String.eqb name "list_changes").
      { destruct (ListChangesSchema args) as [[query limit] |]; [| discriminate].
        injection Hcall as _ <-. reflexivity. }
      destruct (String.eqb name "get_change_detail").
      { destruct (GetChangeSchema args) as [changeId |]; [| discriminate].
        injection Hcall as _ <-. reflexivity. }
      destruct (String.eqb_spec name "set_review"); [contradiction | discriminate].
    + intros changeId revisionId msg labels -> Hargs.
      unfold single_call in Hcall. cbn in Hcall. rewrite Hargs in Hcall.
      injection Hcall as _ <-. reflexivity.
  - intros msg Hm. rewrite Hm. reflexivity.
Qed.

(** X5. What a single-call tool reports for a rejected call.  When the
    upstream body is prefixed JSON with a non-empty string in its
    [message] field, the text is [Error: <that message>]; when the body
    is plain text (as Gerrit sends its errors) or there is no response,
    the text is [Error: <the error's own message>], and the upstream text
    does not appear. *)
Theorem single_call_tools_errors (name : string) (args : JSValue) (req : Request)
  (k : AxiosResponse -> ToolResponse) (st : State) (err : JSError) (w : World) :
  single_call name args = Some (req, k) ->
  World_http req (world st) = (inr err, w) ->
  (forall rest fields m,
      response err = Some {| data := JSStr (XSSI_PREFIX ++ rest) |} ->
      JSON_parse rest = inl (JSObj fields) ->
      own_property fields "message" = JSStr m ->
      m <> EmptyString ->
      fst (CallToolRequest_handler name args st)
      = Normal {| text := "Error: " ++ m; isError := true |})
  /\ (forall body,
         response err = Some {| data := JSStr body |} ->
         startsWith body XSSI_PREFIX = false ->
         fst (CallToolRequest_handler name args st)
         = Normal {| text := "Error: " ++ message err; isError := true |})
  /\ (response err = None ->
      fst (CallToolRequest_handler name args st)
      = Normal {| text := "Error: " ++ message err; isError := true |}).
Proof.
  intros Hcall Hw.
  unfold CallToolRequest_handler, try_catch.
  rewrite (single_call_run _ _ _ _ st Hcall).
  unfold bind, ret. rewrite (gerritApi_run _ _ _ _ Hw). unfold on_rejected.
  repeat split.
  - intros rest fields m Hr Hv Hm Hne. rewrite Hr. cbn [data].
    rewrite parse_prefixed, Hv.
    destruct (ToBoolean (JSStr (XSSI_PREFIX ++ rest))) eqn:Htruthy;
      [| discriminate Htruthy].
    rewrite error_response_run. cbn [fst].
    unfold errorMessage, response_data, or_else. cbn [response data optional_get].
    rewrite Hm. cbn [ToBoolean ToString].
    destruct (String.eqb_spec m EmptyString); [contradiction | reflexivity].
  - intros body Hr Hp. rewrite Hr. cbn [data]. rewrite (parse_unprefixed body Hp).
    destruct (ToBoolean (JSStr body)); rewrite error_response_run; cbn [fst];
      unfold errorMessage, response_data; cbn [response message data];
      try rewrite Hr; reflexivity.
  - intros Hr. rewrite Hr. rewrite error_response_run. cbn [fst].
    unfold errorMessage, response_data. rewrite Hr. reflexivity.
Qed.

(** ** Arguments and the advertised schemas *)

Ltac registered_cases H :=
  simpl in H;
  repeat match type of H with
         | _ \/ _ => destruct H as [H | H]
         end;
  [subst .. | contradiction].

Lemma schema_rejection_run (name : string) (args : JSValue) (st : State) :
  In name registered_tools ->
  accepts name args = false ->
  CallToolRequest_handler name args st
  = (Normal {| text := "Error: " ++ ZodError_message (schema_name name) args;
               isError := true |}, st).
Proof.
  intros Hname. registered_cases Hname; unfold accepts, schema_name; cbn; intros Hrej;
    unfold CallToolRequest_handler, try_catch;
    match goal with
    | |- context [tool_switch ?n args st] =>
        let t := eval cbn in (tool_switch n args) in change (tool_switch n args st) with (t st)
    end.
  - unfold list_changes, parse. destruct (ListChangesSchema args); [discriminate | reflexivity].
  - unfold get_change_detail, parse.
    destruct (GetChangeSchema args); [discriminate | reflexivity].
  - unfold set_review, parse. destruct (SetReviewSchema args); [discriminate | reflexivity].
  - unfold submit_changes, parse.
    destruct (SubmitChangesSchema args); [discriminate | reflexivity].
  - unfold batch_review_submit_by_topic, parse.
    destruct (BatchReviewSubmitSchema args); [discriminate | reflexivity].
  - unfold sync_gerrit_to_local, parse.
    destruct (SyncGerritSchema args); [discriminate | reflexivity].
Qed.

Lemma same_parse_same_run (name : string) (args args' : JSValue) (st : State) :
  accepts name args = true ->
  same_parse name args args' ->
  CallToolRequest_handler name args st = CallToolRequest_handler name args' st.
Proof.
  intros Hacc Hsame.
  assert (H : tool_switch name args st = tool_switch name args' st);
    [| now apply handler_same_switch].
  revert Hacc Hsame. unfold accepts, same_parse, tool_switch.
  destruct (String.eqb name "list_changes").
  { unfold list_changes, parse. intros Hacc <-.
    destruct (ListChangesSchema args); [reflexivity | discriminate]. }
  destruct (String.eqb name "get_change_detail").
  { unfold get_change_detail, parse. intros Hacc <-.
    destruct (GetChangeSchema args); [reflexivity | discriminate]. }
  destruct (String.eqb name "set_review").
  { unfold set_review, parse. intros Hacc <-.
    destruct (SetReviewSchema args); [reflexivity | discriminate]. }
  destruct (String.eqb name "submit_changes").
  { unfold submit_changes, parse. intros Hacc <-.
    destruct (SubmitChangesSchema args); [reflexivity | discriminate]. }
  destruct (String.eqb name "batch_review_submit_by_topic").
  { unfold batch_review_submit_by_topic, parse. intros Hacc <-.
    destruct (BatchReviewSubmitSchema args); [reflexivity | discriminate]. }
  destruct (String.eqb name "sync_gerrit_to_local").
  { unfold sync_gerrit_to_local, parse. intros Hacc <-.
    destruct (SyncGerritSchema args); [reflexivity | discriminate]. }
  discriminate.
Qed.

(** X6. Every registered tool validates its arguments before anything
    else: arguments its schema rejects give the flagged text [Error:
    <ZodError message>] and the state is unchanged, so no call was made.
    Arguments that are no object (absent, [null], an array, a string)
    are rejected by every tool. *)
Theorem rejected_arguments_make_no_call (name : string) (args : JSValue) (st : State) :
  In name registered_tools ->
  (accepts name args = false ->
   CallToolRequest_handler name args st
   = (Normal {| text := "Error: " ++ ZodError_message (schema_name name) args;
                isError := true |}, st))
  /\ ((forall fields, args <> JSObj fields) -> accepts name args = false).
Proof.
  intros Hname. split.
  - exact (schema_rejection_run name args st Hname).
  - intros Hno. registered_cases Hname; unfold accepts; cbn;
      destruct args; try reflexivity; now elim (Hno fields).
Qed.

(** X7. The keys a tool advertises as [required] are required by its
    schema: a request whose argument record lacks one of them is answered
    by the flagged validation error, and no call is made. *)
Theorem required_arguments_are_enforced (t : Tool) (key : string)
  (fields : list (string * JSValue)) (st : State) :
  In t ListTools ->
  In key (required t) ->
  own_property fields key = JSUndefined ->
  CallToolRequest_handler (tool_name t) (JSObj fields) st
  = (Normal {| text := "Error: "
                         ++ ZodError_message (schema_name (tool_name t)) (JSObj fields);
               isError := true |}, st).
Proof.
  intros Ht Hkey Hmissing.
  apply schema_rejection_run.
  - registered_cases Ht; simpl; tauto.
  - registered_cases Ht; simpl in Hkey; try contradiction;
      destruct Hkey as [<- | []]; unfold accepts; cbn;
      unfold GetChangeSchema, SetReviewSchema, SubmitChangesSchema,
        BatchReviewSubmitSchema, z_object; rewrite Hmissing; reflexivity.
Qed.

Lemma own_property_cons (k k' : string) (v : JSValue)
  (fields : list (string * JSValue)) :
  own_property ((k, v) :: fields) k'
  = if String.eqb k k' then v else own_property fields k'.
Proof. reflexivity. Qed.

(** X8. The defaults a tool advertises are the ones its schema applies: a
    request that leaves out an argument with an advertised default is
    answered exactly as the same request with that argument set to the
    default. *)
Theorem advertised_defaults_are_applied (t : Tool) (p : Property) (d : JSValue)
  (fields : list (string * JSValue)) (st : State) :
  In t ListTools ->
  In p (properties t) ->
  prop_default p = Some d ->
  own_property fields (prop_name p) = JSUndefined ->
  accepts (tool_name t) (JSObj fields) = true ->
  CallToolRequest_handler (tool_name t) (JSObj fields) st
  = CallToolRequest_handler (tool_name t) (JSObj ((prop_name p, d) :: fields)) st.
Proof.
  intros Ht Hp Hd Hmissing Hacc.
  apply same_parse_same_run; [exact Hacc |]. clear Hacc.
  registered_cases Ht; simpl in Hp;
    repeat match type of Hp with
           | _ \/ _ => destruct Hp as [Hp | Hp]
           | False => contradiction
           end;
    subst p; cbn in Hd; try discriminate; injection Hd as <-; cbn in Hmissing;
    unfold same_parse; cbn [tool_name String.eqb Ascii.eqb Bool.eqb];
    unfold ListChangesSchema, SetReviewSchema, BatchReviewSubmitSchema, z_object;
    rewrite !own_property_cons; cbn [prop_name String.eqb Ascii.eqb Bool.eqb];
    rewrite ?Hmissing; reflexivity.
Qed.

(** X9. A tool reads the advertised arguments only: two argument records
    that agree on every advertised key of the tool, the first accepted by
    its schema, are answered alike, whatever other keys they hold. *)
Theorem unadvertised_arguments_are_ignored (t : Tool)
  (fields fields' : list (string * JSValue)) (st : State) :
  In t ListTools ->
  (forall p, In p (properties t) ->
             own_property fields (prop_name p) = own_property fields' (prop_name p)) ->
  accepts (tool_name t) (JSObj fields) = true ->
  CallToolRequest_handler (tool_name t) (JSObj fields) st
  = CallToolRequest_handler (tool_name t) (JSObj fields') st.
Proof.
  intros Ht Hagree Hacc.
  apply same_parse_same_run; [exact Hacc |]. clear Hacc.
  assert (Hkey : forall k, In k (map prop_name (properties t)) ->
                           own_property fields k = own_property fields' k).
  { intros k Hk. apply in_map_iff in Hk. destruct Hk as (p & <- & Hp). auto. }
  clear Hagree.
  registered_cases Ht; cbn [tool_name properties map prop_name] in Hkey;
    unfold same_parse; cbn [tool_name String.eqb Ascii.eqb Bool.eqb];
    unfold ListChangesSchema, GetChangeSchema, SetReviewSchema, SubmitChangesSchema,
      BatchReviewSubmitSchema, SyncGerritSchema, z_object;
    repeat match goal with
           | |- context [own_property fields ?k] =>
               rewrite (Hkey k) by (simpl; tauto)
           end;
    reflexivity.
Qed.

(** ** submit_changes *)


(** ** The batch tools: no failure, a failing query *)

(** X11. When no item fails, the report of a batch tool is the success
    line of every item, in order, and the calls made after the query are
    the complete step sequences of the items, in order: three per item
    for the vote tool, the announced command per item for the sync
    tool. *)
Theorem batch_without_failure :
  (forall (args : JSValue) (topic : string) (vV vR : Number) (st st1 : State)
          (listResp : AxiosResponse) (c : Change) (rest : list Change),
      BatchReviewSubmitSchema args = Some (topic, vV, vR) ->
      gerritApi_get "/changes/" (batch_query topic) false st = (Normal listResp, st1) ->
      as_changes (data listResp) = Some (c :: rest) ->
      item_outcomes (vote_then_submit vV vR) (c :: rest) st1
        = repeat None (length (c :: rest)) ->
      exists st',
        CallToolRequest_handler "batch_review_submit_by_topic" args st
        = (Normal {| text := join LF (map processed_line (c :: rest));
                     isError := false |}, st')
        /\ trace st' = (trace st1 ++ flat_map (vote_steps vV vR) (c :: rest))%list)
  /\ (forall (args : JSValue) (topic changeId : option string) (query : string)
             (st st1 : State) (r : AxiosResponse) (c : Change) (rest : list Change),
         SyncGerritSchema args = Some (topic, changeId) ->
         sync_query topic changeId = ret query ->
         gerritApi_get "/changes/" (sync_params query) true st = (Normal r, st1) ->
         as_changes (data r) = Some (c :: rest) ->
         Forall resolves (c :: rest) ->
         item_outcomes sync_item (c :: rest) st1 = repeat None (length (c :: rest)) ->
         exists st',
           CallToolRequest_handler "sync_gerrit_to_local" args st
           = (Normal {| text := join LF (map synced_line_of (c :: rest));
                        isError := false |}, st')
           /\ trace st' = (trace st1 ++ flat_map sync_steps (c :: rest))%list).
Proof.
  split.
  - intros args topic vV vR st st1 listResp c rest Hargs Hget Hdata Hout.
    destruct (run_items_all_ok (vote_then_submit vV vR) (vote_steps vV vR)
                processed_line batch_failed_line_of
                (vote_then_submit_complete vV vR) _ _ Hout) as [Ht Hl].
    assert (Hall : Forall outcome_renders
                     (item_outcomes (vote_then_submit vV vR) (c :: rest) st1)).
    { rewrite Hout. apply Forall_forall. intros o Ho.
      apply repeat_spec in Ho. now subst. }
    eexists. rewrite (batch_tool_run _ _ _ _ _ _ _ _ _ Hargs Hget Hdata Hall), Hl.
    auto.
  - intros args topic changeId query st st1 r c rest Hargs Hq Hget Hdata Hres Hout.
    eexists. rewrite (sync_tool_run _ _ _ _ _ _ _ _ _ Hargs Hq Hget Hdata Hres), Hout,
      report_all_ok.
    split; [reflexivity |]. exact (sync_run_trace _ _ Hres).
Qed.


(** ** The sync tool: its commands, an unresolved revision, its selector *)

(** X13. Whatever fails, the sync tool runs exactly one [repo download]
    command per resolved change, in the order of the answer, each
    announced on stderr just before it runs; a failing command does not
    keep the later ones from running, and the result is not flagged. *)
Theorem sync_runs_every_command (args : JSValue) (topic changeId : option string)
  (query : string) (st st1 : State) (r : AxiosResponse) (changes : list Change) :
  SyncGerritSchema args = Some (topic, changeId) ->
  sync_query topic changeId = ret query ->
  gerritApi_get "/changes/" (sync_params query) true st = (Normal r, st1) ->
  as_changes (data r) = Some changes ->
  Forall resolves changes ->
  exists result st',
    CallToolRequest_handler "sync_gerrit_to_local" args st = (Normal result, st')
    /\ isError result = false
    /\ trace st' = (trace st1 ++ flat_map sync_steps changes)%list
    /\ Forall2 (fun change evs =>
                  exists p, current_patchset change = Some p
                            /\ evs = [ConsoleError
                                        ("Executing: repo download " ++ project change
                                           ++ " " ++ Number_toString (_number change)
                                           ++ "/" ++ Number_toString p);
                                      ExecSync
                                        ("repo download " ++ project change
                                           ++ " " ++ Number_toString (_number change)
                                           ++ "/" ++ Number_toString p)])
         changes (map sync_steps changes).
Proof.
  intros Hargs Hq Hget Hdata Hres.
  pose proof (sync_tool_resolved _ _ _ _ _ _ _ _ Hargs Hq Hget Hdata) as Hrun.
  assert (HF : Forall2 (fun change evs =>
                  exists p, current_patchset change = Some p
                            /\ evs = [ConsoleError
                                        ("Executing: repo download " ++ project change
                                           ++ " " ++ Number_toString (_number change)
                                           ++ "/" ++ Number_toString p);
                                      ExecSync
                                        ("repo download " ++ project change
                                           ++ " " ++ Number_toString (_number change)
                                           ++ "/" ++ Number_toString p)])
         changes (map sync_steps changes)).
  { clear Hdata Hrun. induction Hres as [| c rest Hc Hrest IH]; simpl; constructor; auto.
    destruct (resolves_inv c Hc) as (p & Ep & _).
    exists p. split; [exact Ep |].
    unfold sync_steps. rewrite Ep. reflexivity. }
  destruct changes as [| c rest].
  - eexists _, _. split; [exact (handler_normal _ _ _ _ _ Hrun) |].
    simpl. rewrite app_nil_r. auto.
  - unfold bind in Hrun. rewrite (sync_loop_run _ _ _ Hres) in Hrun. unfold ret in Hrun.
    eexists _, _. split; [exact (handler_normal _ _ _ _ _ Hrun) |].
    split; [reflexivity |].
    split; [apply (sync_run_trace _ _ Hres) | exact HF].
Qed.



Lemma sync_first_call (args : JSValue) (topic changeId : option string)
  (query : string) (st : State) :
  SyncGerritSchema args = Some (topic, changeId) ->
  sync_query topic changeId = ret query ->
  exists evs,
    trace (snd (CallToolRequest_handler "sync_gerrit_to_local" args st))
    = (trace st ++ HttpRequest (sync_list_request query) :: evs)%list.
Proof.
  intros Hargs Hq. rewrite handler_state.
  change (tool_switch _ args st) with (sync_gerrit_to_local args st).
  unfold sync_gerrit_to_local, parse. rewrite Hargs.
  unfold bind at 1, ret at 1. rewrite Hq.
  unfold bind at 1, ret at 1. unfold bind at 1, gerritApi_get.
  fold (sync_list_request query).
  pose proof (gerritApi_trace (sync_list_request query) st) as T.
  destruct (gerritApi (sync_list_request query) st) as [[r | e] st1]; simpl in *.
  - destruct (as_changes (data r)) as [[| c rest] |].
    + exists []. exact T.
    + unfold bind.
      destruct (sync_loop_extends (c :: rest) [] st1) as [evs Hevs].
      exists evs.
      destruct (sync_loop (c :: rest) [] st1) as [[results | e] st']; simpl in *;
        rewrite Hevs, T, <- app_assoc; reflexivity.
    + exists []. exact T.
  - exists []. exact T.
Qed.

(** X15. With no topic, or an empty one, and a non-empty change
    identifier, the sync tool queries the identifier as it is, without
    quotes or a [change:] operator: that query is its first call. *)
Theorem sync_falls_back_to_changeId (args : JSValue) (topic : option string)
  (changeId : string) (st : State) :
  SyncGerritSchema args = Some (topic, Some changeId) ->
  topic = None \/ topic = Some EmptyString ->
  changeId <> EmptyString ->
  sync_query topic (Some changeId) = ret changeId
  /\ exists evs,
       trace (snd (CallToolRequest_handler "sync_gerrit_to_local" args st))
       = (trace st ++ HttpRequest (sync_list_request changeId) :: evs)%list.
Proof.
  intros Hargs Htopic Hc.
  assert (Hq : sync_query topic (Some changeId) = ret changeId).
  { unfold sync_query. rewrite (truthy_nonempty changeId Hc).
    destruct Htopic as [-> | ->]; reflexivity. }
  split; [exact Hq |]. exact (sync_first_call _ _ _ _ st Hargs Hq).
Qed.

(** ** Startup *)

Lemma strip_trailing_slash_app (h : string) : strip_trailing_slash (h ++ "/") = h.
Proof.
  induction h as [| c rest IH]; [reflexivity |].
  cbn [String.append strip_trailing_slash]. fold (String.append rest "/").
  destruct rest as [| c' rest']; [reflexivity |].
  cbn [String.append] in *. now rewrite IH.
Qed.

Lemma strip_trailing_slash_none (h : string) :
  (forall h', h <> h' ++ "/") -> strip_trailing_slash h = h.
Proof.
  induction h as [| c rest IH]; intros Hno; [reflexivity |].
  cbn [strip_trailing_slash]. destruct rest as [| c' rest'].
  - destruct (Ascii.eqb_spec c "/"%char) as [-> | _]; [| reflexivity].
    now elim (Hno EmptyString).
  - rewrite IH; [reflexivity |].
    intros h' E. apply (Hno (String c h')). cbn [String.append]. now rewrite E.
Qed.

Lemma truthy_Some (s : string) : truthy (Some s) = negb (String.eqb s EmptyString).
Proof. reflexivity. Qed.

(** X16. The server starts only when the host, the user and the password
    are all set and non-empty; otherwise it writes the missing-variables
    line to stderr and exits with code 1.  When it starts, requests go to
    the host followed by [/a], and one slash that ends the host is
    dropped first: a host written with or without a trailing slash gives
    the same base URL (of two trailing slashes one remains). *)
Theorem startup_requires_credentials :
  (forall env : Env,
      (exists config, startup env = Created config)
      <-> (exists h u p, env = mkEnv (Some h) (Some u) (Some p)
                         /\ h <> EmptyString /\ u <> EmptyString /\ p <> EmptyString))
  /\ (forall env : Env,
         (forall config, startup env <> Created config) ->
         startup env
         = Exit 1 "Missing required environment variables: GERRIT_HOST, GERRIT_USER, GERRIT_PASSWORD")
  /\ (forall h u p : string,
         u <> EmptyString -> p <> EmptyString ->
         startup (mkEnv (Some (h ++ "/")) (Some u) (Some p))
         = Created {| baseURL := h ++ "/a"; auth_username := u; auth_password := p |})
  /\ (forall h u p : string,
         h <> EmptyString -> u <> EmptyString -> p <> EmptyString ->
         (forall h', h <> h' ++ "/") ->
         startup (mkEnv (Some h) (Some u) (Some p))
         = Created {| baseURL := h ++ "/a"; auth_username := u; auth_password := p |}).
Proof.
  assert (Hstart : forall h u p, h <> EmptyString -> u <> EmptyString ->
                                  p <> EmptyString ->
            startup (mkEnv (Some h) (Some u) (Some p))
            = Created {| baseURL := strip_trailing_slash h ++ "/a";
                         auth_username := u; auth_password := p |}).
  { intros h u p Hh Hu Hp. unfold startup. cbn [GERRIT_HOST GERRIT_USER GERRIT_PASSWORD].
    rewrite (truthy_nonempty h Hh), (truthy_nonempty u Hu), (truthy_nonempty p Hp).
    reflexivity. }
  split; [| split; [| split]].
  - intros [h u p]. split.
    + intros [config H]. unfold startup in H.
      cbn [GERRIT_HOST GERRIT_USER GERRIT_PASSWORD] in H.
      destruct h as [h |]; [| discriminate H].
      destruct u as [u |]; [| destruct (truthy (Some h)); discriminate H].
      destruct p as [p |];
        [| destruct (truthy (Some h)), (truthy (Some u)); discriminate H].
      rewrite !truthy_Some in H.
      destruct (String.eqb_spec h EmptyString); [discriminate H |].
      destruct (String.eqb_spec u EmptyString); [discriminate H |].
      destruct (String.eqb_spec p EmptyString); [discriminate H |].
      exists h, u, p. auto.
    + intros (h' & u' & p' & E & Hh & Hu & Hp). injection E as -> -> ->.
      eexists. exact (Hstart h' u' p' Hh Hu Hp).
  - intros env Hno. unfold startup in *.
    destruct (negb (truthy (GERRIT_HOST env)) || negb (truthy (GERRIT_USER env))
              || negb (truthy (GERRIT_PASSWORD env))); [reflexivity |].
    now elim (Hno _ eq_refl).
  - intros h u p Hu Hp. rewrite Hstart; auto.
    + now rewrite strip_trailing_slash_app.
    + destruct h; discriminate.
  - intros h u p Hh Hu Hp Hno. rewrite Hstart; auto.
    now rewrite (strip_trailing_slash_none h Hno).
Qed.

(** ** The four-tool version *)

(** X17. The six-tool handler extends the four-tool one: every request
    whose tool is neither [submit_changes] nor
    [batch_review_submit_by_topic] is answered alike by both, and the
    four-tool handler answers those two names with the unknown-tool
    error, without a call. *)
Theorem six_tools_extend_four (name : string) (args : JSValue) (st : State) :
  (name <> "submit_changes" -> name <> "batch_review_submit_by_topic" ->
   CallToolRequest_handler name args st = CallToolRequest_handler_v1 name args st)
  /\ (name = "submit_changes" \/ name = "batch_review_submit_by_topic" ->
      CallToolRequest_handler_v1 name args st
      = (Normal {| text := "Error: Unknown tool: " ++ name; isError := true |}, st)).
Proof.
  split.
  - intros H1 H2. unfold CallToolRequest_handler, CallToolRequest_handler_v1,
      try_catch, tool_switch, tool_switch_v1.
    destruct (String.eqb name "list_changes"); [reflexivity |].
    destruct (String.eqb name "get_change_detail"); [reflexivity |].
    destruct (String.eqb name "set_review"); [reflexivity |].
    destruct (String.eqb_spec name "submit_changes"); [contradiction |].
    destruct (String.eqb_spec name "batch_review_submit_by_topic"); [contradiction |].
    reflexivity.
  - intros [-> | ->]; reflexivity.
Qed.

End Properties.

(** * The claims on scripted runs *)

Section Runs.

Local Existing Instance Z_number.

(** The two end-to-end scenarios of the vote-then-submit tool. *)
Example two_changes_processed :
  fst (CallToolRequest_handler (rt := all_accepted_run)
         "batch_review_submit_by_topic" (topic_args "feature-x")
         (start all_accepted_run 0%nat))
  = Normal {| text := join LF ["✓ Processed 41: Add lint"; "✓ Processed 42: Fix build"];
              isError := false |}.
Proof. reflexivity. Qed.

Example second_submit_rejected :
  fst (CallToolRequest_handler (rt := submit_rejected_run)
         "batch_review_submit_by_topic" (topic_args "feature-x")
         (start submit_rejected_run 0%nat))
  = Normal {| text := join LF ["✓ Processed 41: Add lint";
                               "✗ Failed 42: merge conflict"];
              isError := false |}.
Proof. reflexivity. Qed.

(** When the answer lacks the revision entry of a change, the read before
    the [try] throws and the handler's [catch] answers for the whole
    request, after the first download has run. *)
Example unresolved_revision_aborts_sync :
  CallToolRequest_handler (rt := unresolved_run) "sync_gerrit_to_local"
    (topic_args "feature-x") (start unresolved_run 0%nat)
  = (Normal {| text := "Error: Cannot read properties of undefined (reading '_number')";
               isError := true |},
     @mkState _ unresolved_run 2%nat
       [HttpRequest (sync_list_request ("topic:" ++ DQ ++ "feature-x" ++ DQ));
        ConsoleError "Executing: repo download tools 41/2";
        ExecSync "repo download tools 41/2"]).
Proof. reflexivity. Qed.

(** The same when the change has no [revisions] at all: the [TypeError]
    is the one of reading the current revision's key. *)
Example missing_revisions_abort_sync :
  fst (CallToolRequest_handler (rt := second_without_revisions_run)
         "sync_gerrit_to_local" (topic_args "feature-x")
         (start second_without_revisions_run 0%nat))
  = Normal {| text := "Error: Cannot read properties of undefined (reading 'b7')";
              isError := true |}.
Proof. reflexivity. Qed.

(** A current revision named like a member of [Object.prototype], without
    an entry of its own: nothing is thrown, and the command is run with
    an [undefined] patch set. *)
Example inherited_member_is_no_revision :
  CallToolRequest_handler (rt := revision_named_constructor_run)
    "sync_gerrit_to_local" (topic_args "feature-x")
    (start revision_named_constructor_run 0%nat)
  = (Normal {| text := "✓ Synced 42/undefined in tools: Fix build"; isError := false |},
     @mkState _ revision_named_constructor_run 2%nat
       [HttpRequest (sync_list_request ("topic:" ++ DQ ++ "feature-x" ++ DQ));
        ConsoleError "Executing: repo download tools 42/undefined";
        ExecSync "repo download tools 42/undefined"]).
Proof. reflexivity. Qed.

(** C2 on a prefixed body, on a body without the prefix and on a value
    that is no string. *)
Lemma parseGerritResponse_unwraps_witness :
  parseGerritResponse (rt := nothing_found_run) (JSStr ")]}'[]") = inl (JSArr [])
  /\ parseGerritResponse (rt := nothing_found_run) (JSStr "[]") = inl (JSStr "[]")
  /\ parseGerritResponse (rt := nothing_found_run) (JSNum 7%Z) = inl (JSNum 7%Z).
Proof.
  split; [| split].
  - exact (proj1 (@parseGerritResponse_unwraps Z_number nothing_found_run) "[]").
  - apply (proj2 (@parseGerritResponse_unwraps Z_number nothing_found_run)).
    intros rest H. discriminate H.
  - apply (proj2 (@parseGerritResponse_unwraps Z_number nothing_found_run)).
    intros rest H. discriminate H.
Defined.


(** C1 as the claim states it fails, on three items of which the second
    fails.  In the sync tool the second change has no entry for its
    current revision: the read before the [try] throws, the result is
    the flagged error text and not three lines, and the third change is
    never processed.  In the vote tool the submit of the second change is
    rejected with a body that has no text: the [catch] of the item throws,
    the result is the flagged error text, and the third change is neither
    voted nor submitted. *)
Lemma failure_outside_the_try_aborts_the_batch :
  as_changes (Runtime := second_of_three_unresolved_run) second_of_three_unresolved
  = Some [change41; change42_unresolved; change43]
  /\ item_outcomes (rt := second_of_three_unresolved_run) sync_item
       [change41; change42_unresolved; change43]
       (after_calls second_of_three_unresolved_run 1%nat)
     = one_failure 3 1
         (Error "Cannot read properties of undefined (reading '_number')")
  /\ CallToolRequest_handler (rt := second_of_three_unresolved_run)
       "sync_gerrit_to_local" (topic_args "feature-x")
       (start second_of_three_unresolved_run 0%nat)
     = (Normal {| text := "Error: Cannot read properties of undefined (reading '_number')";
                  isError := true |},
        @mkState _ second_of_three_unresolved_run 2%nat
          [HttpRequest (sync_list_request ("topic:" ++ DQ ++ "feature-x" ++ DQ));
           ConsoleError "Executing: repo download tools 41/2";
           ExecSync "repo download tools 41/2"])
  /\ CallToolRequest_handler (rt := submit_rejected_without_text_run)
       "batch_review_submit_by_topic" (topic_args "feature-x")
       (start submit_rejected_without_text_run 0%nat)
     = (Normal {| text := "Error: Cannot convert object to primitive value";
                  isError := true |},
        @mkState _ submit_rejected_without_text_run 5%nat
          (HttpRequest (batch_list_request "feature-x")
             :: @vote_steps Z_number 1%Z 2%Z change41
             ++ @vote_steps Z_number 1%Z 2%Z change42)%list).
Proof. repeat split; reflexivity. Qed.


(** C3 as the claim states it fails: the topic resolves to three changes
    and the submit of the second is rejected with a body that has no
    text.  The first change was voted and submitted, yet the result holds
    no line for it: it is the flagged error text alone. *)
Lemma report_is_dropped_with_its_lines :
  as_changes (Runtime := submit_rejected_without_text_run) three_changes
  = Some [change41; change42; change43]
  /\ item_outcomes (rt := submit_rejected_without_text_run)
       (@vote_then_submit Z_number submit_rejected_without_text_run 1%Z 2%Z)
       [change41; change42; change43]
       (after_calls submit_rejected_without_text_run 1%nat)
     = [None;
        Some {| response := Some {| data := without_text |};
                message := "Request failed with status code 409" |};
        None]
  /\ fst (CallToolRequest_handler (rt := submit_rejected_without_text_run)
            "batch_review_submit_by_topic" (topic_args "feature-x")
            (start submit_rejected_without_text_run 0%nat))
     = Normal {| text := "Error: Cannot convert object to primitive value";
                 isError := true |}
  /\ fst (batch_iteration (rt := submit_rejected_without_text_run) 1%Z 2%Z change41 []
            (after_calls submit_rejected_without_text_run 1%nat))
     = Normal ["✓ Processed 41: Add lint"].
Proof. repeat split; reflexivity. Qed.

(** C4 on a topic without changes. *)
Lemma empty_query_reports_nothing_found_witness :
  fst (CallToolRequest_handler (rt := nothing_found_run)
         "batch_review_submit_by_topic" (topic_args "feature-x")
         (start nothing_found_run 0%nat))
  = Normal {| text := "No open changes found for topic: feature-x"; isError := false |}
  /\ CallToolRequest_handler (rt := nothing_found_run)
       "sync_gerrit_to_local" (topic_args "feature-x")
       (start nothing_found_run 0%nat)
     = (Normal {| text := "No changes found."; isError := false |},
        @mkState _ nothing_found_run 1%nat
          [HttpRequest (sync_list_request ("topic:" ++ DQ ++ "feature-x" ++ DQ))]).
Proof.
  split.
  - edestruct (proj1 (@empty_query_reports_nothing_found Z_number nothing_found_run)
                 (topic_args "feature-x") "feature-x" 1%Z 2%Z
                 (start nothing_found_run 0%nat))
      as [Hrun _]; [reflexivity | reflexivity | left; reflexivity |].
    now rewrite Hrun.
  - edestruct (proj2 (@empty_query_reports_nothing_found Z_number nothing_found_run)
                 (topic_args "feature-x") (Some "feature-x") None)
      with (st := start nothing_found_run 0%nat)
      as [Hrun _]; [reflexivity | reflexivity | reflexivity | left; reflexivity |].
    exact Hrun.
Defined.


(** C5 as the claim states it fails: a request without arguments supplies
    neither selector; it fails before any call, but with the validation
    error of the schema, not with the missing-selector error. *)
Lemma missing_arguments_are_a_validation_error :
  CallToolRequest_handler (rt := nothing_found_run) "sync_gerrit_to_local" JSUndefined
    (start nothing_found_run 0%nat)
  = (Normal {| text := "Error: " ++ ZodError_message (Runtime := nothing_found_run)
                                     "SyncGerritSchema" JSUndefined;
               isError := true |},
     start nothing_found_run 0%nat)
  /\ fst (CallToolRequest_handler (rt := nothing_found_run) "sync_gerrit_to_local"
            JSUndefined (start nothing_found_run 0%nat))
     <> Normal {| text := "Error: Either topic or changeId must be provided";
                  isError := true |}.
Proof.
  split; [reflexivity |]. intros H. vm_compute in H. discriminate H.
Qed.



(** C7 on the three changes of the run whose second review is rejected. *)
Lemma vote_then_submit_sequence_witness :
  exists lines st',
    batch_loop (rt := vote_rejected_run) 1%Z 2%Z [change41; change42; change43] []
      (after_calls vote_rejected_run 1%nat)
    = (Normal lines, st')
    /\ length lines = 3%nat
    /\ length (trace st') = 7%nat.
Proof.
  edestruct (proj1 (proj2 (@vote_then_submit_sequence Z_number vote_rejected_run))
               1%Z 2%Z [change41; change42; change43]
               (after_calls vote_rejected_run 1%nat))
    as (lines & st' & performed & Hrun & Hlen & _).
  - repeat constructor. unfold renders. discriminate.
  - exists lines, st'. split; [exact Hrun |]. split; [exact Hlen |].
    vm_compute in Hrun. injection Hrun as _ <-. reflexivity.
Defined.


(** C8 as the claim states it fails: the detail request is rejected with
    the JSON body [{"message":{"toString":0}}].  The handler's [catch]
    reads the [message] entry, which has no text, and the [TypeError] of
    its template literal leaves the handler: no result is returned. *)
Lemma message_without_text_passes_the_boundary :
  CallToolRequest_handler (rt := rejected_message_without_text_run)
    "get_change_detail" (JSObj [("changeId", JSStr "99")])
    (start rejected_message_without_text_run 0%nat)
  = (Throw (Error "Cannot convert object to primitive value"),
     @mkState _ rejected_message_without_text_run 1%nat
       [HttpRequest (detail_request "99")])
  /\ print_json message_without_text
     = "{" ++ DQ ++ "message" ++ DQ ++ ":{" ++ DQ ++ "toString" ++ DQ ++ ":0}}".
Proof. split; reflexivity. Qed.

(** The rejected detail request in full: the body is text, so the [catch]
    finds no [message] field in it and reports the error's own message. *)
Example rejected_detail_request :
  fst (CallToolRequest_handler (rt := first_call_rejected_run)
         "get_change_detail" (JSObj [("changeId", JSStr "99")])
         (start first_call_rejected_run 0%nat))
  = Normal {| text := "Error: Request failed with status code 409"; isError := true |}.
Proof. reflexivity. Qed.



(** C10 on a name that is not registered. *)
Lemma unknown_tool_is_an_error_witness :
  CallToolRequest_handler (rt := nothing_found_run) "frobnicate" (JSObj [])
    (start nothing_found_run 0%nat)
  = (Normal {| text := "Error: Unknown tool: frobnicate"; isError := true |},
     start nothing_found_run 0%nat).
Proof.
  apply (@unknown_tool_is_an_error Z_number nothing_found_run).
  simpl. intuition discriminate.
Defined.

(** * Further properties on scripted runs *)

(** X1 on the answered changes query of the sync tool. *)
Lemma answered_call_is_unwrapped_witness :
  gerritApi (rt := first_call_answered_run) (sync_list_request "status:open")
    (start first_call_answered_run 0%nat)
  = (Normal {| data := two_changes |},
     @mkState _ first_call_answered_run 1%nat
       [HttpRequest (sync_list_request "status:open")]).
Proof.
  refine (proj1 (@answered_call_is_unwrapped Z_number first_call_answered_run
                   (sync_list_request "status:open")
                   (start first_call_answered_run 0%nat) _ 1%nat eq_refl)
            (print_json two_changes) two_changes eq_refl eq_refl).
Defined.

(** X2 on a rejection with a JSON body, on one with a text body and on one
    whose body axios has parsed already. *)
Lemma rejected_call_is_unwrapped_witness :
  fst (gerritApi (rt := first_call_rejected_json_run) (detail_request "99")
         (start first_call_rejected_json_run 0%nat))
  = Throw {| response := Some {| data := JSObj [("message", JSStr "Not found: 99")] |};
             message := "Request failed with status code 409" |}
  /\ fst (gerritApi (rt := first_call_rejected_run) (detail_request "99")
            (start first_call_rejected_run 0%nat))
     = Throw {| response := Some {| data := JSStr "change is locked" |};
                message := "Request failed with status code 409" |}
  /\ (forall (st : @State Z_number first_call_rejected_run) (w : nat),
         World_http (Runtime := first_call_rejected_run) (detail_request "99") (world st)
         = (inr {| response := Some {| data := JSObj [("message", JSStr "Conflict")] |};
                   message := "Request failed with status code 409" |}, w) ->
         fst (gerritApi (rt := first_call_rejected_run) (detail_request "99") st)
         = Throw {| response := Some {| data := JSObj [("message", JSStr "Conflict")] |};
                    message := "Request failed with status code 409" |}).
Proof.
  split; [| split].
  - edestruct (@rejected_call_is_unwrapped Z_number first_call_rejected_json_run
                 (detail_request "99") (start first_call_rejected_json_run 0%nat))
      as (_ & _ & _ & _ & _ & H & _); [reflexivity |].
    rewrite (H (print_json (JSObj [("message", JSStr "Not found: 99")])) _
               eq_refl eq_refl).
    reflexivity.
  - edestruct (@rejected_call_is_unwrapped Z_number first_call_rejected_run
                 (detail_request "99") (start first_call_rejected_run 0%nat))
      as (_ & _ & _ & _ & H & _); [reflexivity |].
    rewrite (H "change is locked" eq_refl eq_refl). reflexivity.
  - intros st w Hw.
    destruct (@rejected_call_is_unwrapped Z_number first_call_rejected_run
                (detail_request "99") st _ w Hw)
      as (_ & _ & _ & H & _).
    rewrite (H _ eq_refl); [reflexivity |]. intros text E. discriminate E.
Defined.


(** X4 on a list request that is answered, and on a review whose answer
    is no JSON. *)
Lemma single_call_tools_results_witness :
  fst (CallToolRequest_handler (rt := first_call_answered_run) "list_changes"
         (JSObj []) (start first_call_answered_run 0%nat))
  = Normal {| text := print_json two_changes; isError := false |}
  /\ fst (CallToolRequest_handler (rt := garbled_answer_run) "set_review"
            (JSObj [("changeId", JSStr "99")]) (start garbled_answer_run 0%nat))
     = Normal {| text := "Error: Unexpected token in JSON"; isError := true |}.
Proof.
  split.
  - edestruct (@single_call_tools_results Z_number first_call_answered_run
                 "list_changes" (JSObj []))
      with (st := start first_call_answered_run 0%nat)
      as [H _]; [reflexivity | reflexivity |].
    destruct (H two_changes eq_refl) as [Hq _]. apply Hq. discriminate.
  - edestruct (@single_call_tools_results Z_number garbled_answer_run
                 "set_review" (JSObj [("changeId", JSStr "99")]))
      with (st := start garbled_answer_run 0%nat)
      as [_ H]; [reflexivity | reflexivity |].
    now rewrite (H "Unexpected token in JSON" eq_refl).
Defined.

(** X5 on a detail request rejected with a JSON body, and with a text
    body. *)
Lemma single_call_tools_errors_witness :
  fst (CallToolRequest_handler (rt := first_call_rejected_json_run) "get_change_detail"
         (JSObj [("changeId", JSStr "99")]) (start first_call_rejected_json_run 0%nat))
  = Normal {| text := "Error: Not found: 99"; isError := true |}
  /\ fst (CallToolRequest_handler (rt := first_call_rejected_run) "get_change_detail"
            (JSObj [("changeId", JSStr "99")]) (start first_call_rejected_run 0%nat))
     = Normal {| text := "Error: Request failed with status code 409";
                 isError := true |}.
Proof.
  split.
  - edestruct (@single_call_tools_errors Z_number first_call_rejected_json_run
                 "get_change_detail" (JSObj [("changeId", JSStr "99")]))
      with (st := start first_call_rejected_json_run 0%nat)
      as (H & _); [reflexivity | reflexivity |].
    apply (H (print_json (JSObj [("message", JSStr "Not found: 99")]))
             [("message", JSStr "Not found: 99")] "Not found: 99");
      [reflexivity | reflexivity | reflexivity | discriminate].
  - edestruct (@single_call_tools_errors Z_number first_call_rejected_run
                 "get_change_detail" (JSObj [("changeId", JSStr "99")]))
      with (st := start first_call_rejected_run 0%nat)
      as (_ & H & _); [reflexivity | reflexivity |].
    apply (H "change is locked"); reflexivity.
Defined.

(** X6 on a request whose arguments are [null]. *)
Lemma rejected_arguments_make_no_call_witness :
  CallToolRequest_handler (rt := nothing_found_run) "submit_changes" JSNull
    (start nothing_found_run 0%nat)
  = (Normal {| text := "Error: Invalid arguments for SubmitChangesSchema";
               isError := true |},
     start nothing_found_run 0%nat).
Proof.
  edestruct (@rejected_arguments_make_no_call Z_number nothing_found_run
               "submit_changes" JSNull (start nothing_found_run 0%nat))
    as [Hrun Hno]; [simpl; tauto |].
  apply Hrun. apply Hno. discriminate.
Defined.

(** X7 on a detail request without [changeId]. *)
Lemma required_arguments_are_enforced_witness :
  CallToolRequest_handler (rt := nothing_found_run) "get_change_detail" (JSObj [])
    (start nothing_found_run 0%nat)
  = (Normal {| text := "Error: Invalid arguments for GetChangeSchema";
               isError := true |},
     start nothing_found_run 0%nat).
Proof.
  apply (@required_arguments_are_enforced Z_number nothing_found_run detail_tool
           "changeId" [] (start nothing_found_run 0%nat));
    [simpl; tauto | simpl; tauto | reflexivity].
Defined.

(** X8 on a list request without [query]. *)
Lemma advertised_defaults_are_applied_witness :
  CallToolRequest_handler (rt := first_call_answered_run) "list_changes" (JSObj [])
    (start first_call_answered_run 0%nat)
  = CallToolRequest_handler (rt := first_call_answered_run) "list_changes"
      (JSObj [("query", JSStr "status:open")]) (start first_call_answered_run 0%nat).
Proof.
  apply (@advertised_defaults_are_applied Z_number first_call_answered_run
           (nth 0 ListTools detail_tool) query_property (JSStr "status:open") []
           (start first_call_answered_run 0%nat));
    [simpl; tauto | simpl; tauto | reflexivity | reflexivity | reflexivity].
Defined.

(** X9 on a detail request with a key the tool does not advertise. *)
Lemma unadvertised_arguments_are_ignored_witness :
  CallToolRequest_handler (rt := first_call_answered_run) "get_change_detail"
    (JSObj [("changeId", JSStr "41")]) (start first_call_answered_run 0%nat)
  = CallToolRequest_handler (rt := first_call_answered_run) "get_change_detail"
      (JSObj [("verbose", JSBool true); ("changeId", JSStr "41")])
      (start first_call_answered_run 0%nat).
Proof.
  apply (@unadvertised_arguments_are_ignored Z_number first_call_answered_run
           detail_tool [("changeId", JSStr "41")]
           [("verbose", JSBool true); ("changeId", JSStr "41")]
           (start first_call_answered_run 0%nat));
    [simpl; tauto | | reflexivity].
  intros p [<- | []]. reflexivity.
Defined.


(** X11 on two changes, every call accepted or every download done. *)
Lemma batch_without_failure_witness :
  (exists st',
      CallToolRequest_handler (rt := all_accepted_run) "batch_review_submit_by_topic"
        (topic_args "feature-x") (start all_accepted_run 0%nat)
      = (Normal {| text := join LF ["✓ Processed 41: Add lint";
                                    "✓ Processed 42: Fix build"];
                   isError := false |}, st')
      /\ length (trace st') = 7%nat)
  /\ (exists st',
         CallToolRequest_handler (rt := first_call_answered_run) "sync_gerrit_to_local"
           (topic_args "feature-x") (start first_call_answered_run 0%nat)
         = (Normal {| text := join LF ["✓ Synced 41/2 in tools: Add lint";
                                       "✓ Synced 42/1 in tools: Fix build"];
                      isError := false |}, st')
         /\ length (trace st') = 5%nat).
Proof.
  split.
  - edestruct (proj1 (@batch_without_failure Z_number all_accepted_run)
                 (topic_args "feature-x") "feature-x" 1%Z 2%Z
                 (start all_accepted_run 0%nat))
      as (st' & Hrun & Ht);
      [reflexivity | reflexivity | reflexivity | reflexivity |].
    exists st'. rewrite Hrun, Ht. split; reflexivity.
  - edestruct (proj2 (@batch_without_failure Z_number first_call_answered_run)
                 (topic_args "feature-x") (Some "feature-x") None)
      with (st := start first_call_answered_run 0%nat)
      as (st' & Hrun & Ht);
      [reflexivity | reflexivity | reflexivity | reflexivity
      | repeat constructor; discriminate | reflexivity |].
    exists st'. rewrite Hrun, Ht. split; reflexivity.
Defined.


(** X13 on the run whose second download fails. *)
Lemma sync_runs_every_command_witness :
  exists result st',
    CallToolRequest_handler (rt := download_fails_run) "sync_gerrit_to_local"
      (topic_args "feature-x") (start download_fails_run 0%nat)
    = (Normal result, st')
    /\ isError result = false
    /\ length (trace st') = 7%nat.
Proof.
  edestruct (@sync_runs_every_command Z_number download_fails_run
               (topic_args "feature-x") (Some "feature-x") None)
    with (st := start download_fails_run 0%nat)
    as (result & st' & Hrun & Hflag & Ht & _);
    [reflexivity | reflexivity | reflexivity | reflexivity
    | repeat constructor; discriminate |].
  exists result, st'. split; [exact Hrun |]. split; [exact Hflag |].
  rewrite Ht. reflexivity.
Defined.


(** X15 on a request that holds a change identifier alone. *)
Lemma sync_falls_back_to_changeId_witness :
  exists evs,
    trace (snd (CallToolRequest_handler (rt := nothing_found_run)
                  "sync_gerrit_to_local" (JSObj [("changeId", JSStr "12345")])
                  (start nothing_found_run 0%nat)))
    = HttpRequest (sync_list_request "12345") :: evs.
Proof.
  edestruct (@sync_falls_back_to_changeId Z_number nothing_found_run
               (JSObj [("changeId", JSStr "12345")]) None "12345"
               (start nothing_found_run 0%nat))
    as (_ & evs & Hevs); [reflexivity | left; reflexivity | discriminate |].
  exists evs. exact Hevs.
Defined.

(** X16 on a host written with and without the trailing slash. *)
Lemma startup_requires_credentials_witness :
  startup (mkEnv (Some "https://gerrit.example.com/") (Some "alice") (Some "secret"))
  = Created {| baseURL := "https://gerrit.example.com/a";
               auth_username := "alice"; auth_password := "secret" |}
  /\ startup (mkEnv (Some "https://gerrit.example.com") (Some "alice") (Some "secret"))
     = startup (mkEnv (Some "https://gerrit.example.com/") (Some "alice")
                  (Some "secret")).
Proof.
  pose proof (proj1 (proj2 (proj2 (@startup_requires_credentials Z_number)))
                "https://gerrit.example.com" "alice" "secret") as H1.
  split.
  - apply H1; discriminate.
  - reflexivity.
Defined.

(** X17 on a sync request and on a submit request. *)
Lemma six_tools_extend_four_witness :
  CallToolRequest_handler (rt := first_call_answered_run) "sync_gerrit_to_local"
    (topic_args "feature-x") (start first_call_answered_run 0%nat)
  = CallToolRequest_handler_v1 (rt := first_call_answered_run) "sync_gerrit_to_local"
      (topic_args "feature-x") (start first_call_answered_run 0%nat)
  /\ CallToolRequest_handler_v1 (rt := second_submit_rejected_run) "submit_changes"
       three_ids (start second_submit_rejected_run 0%nat)
     = (Normal {| text := "Error: Unknown tool: submit_changes"; isError := true |},
        start second_submit_rejected_run 0%nat).
Proof.
  split.
  - apply (@six_tools_extend_four Z_number first_call_answered_run); discriminate.
  - apply (@six_tools_extend_four Z_number second_submit_rejected_run "submit_changes").
    left. reflexivity.
Defined.

End Runs.
